(** * Battery trading hackathon: evaluation pipeline and simulation core

    A shallow embedding of the repository's Python sources, and the
    properties of them that the specification states:

    - [bot/environment.py]    ([Battery], [BatteryEnv])
    - [bot/policies/*.py]     ([Policy], [SimplePolicy], [MovingAveragePolicy])
    - [bot/evaluate.py]       ([set_seed], [run_trial], [main])
    - [submission_backend/db.py], [dock.py], [poll.py]

    Python objects that are mutated in place become records threaded
    through the functions, and Python exceptions become the [Raise]
    branch of [outcome].  For the submission backend the outside (GitHub,
    DynamoDB, the Docker daemon, git, the file system) is an explicit
    state [world] together with an [environment] of answers the outside
    gives; for the evaluation program the process-wide random generators
    are a state passed along, set by [set_seed].  Python floats are read
    as exact rationals. *)

From Stdlib Require Import Ascii QArith Qminmax Qround Lqa.
From stdpp Require Import gmap strings pretty list fin_maps.

Set Default Proof Using "Type".
Set Warnings "-register-all".

(* ===================================================================== *)
(** * Part I: the embedding                                               *)
(* ===================================================================== *)

(** ** Python values, exceptions and results *)

Module Py.

(** The exception classes that the modelled code paths can raise.  All
    of them derive from Python's [Exception]. *)
Inductive exn_class : Type :=
| ValueError
| ZeroDivisionError
| IndexError
| KeyError
| TypeError
| AttributeError
| FileNotFoundError
| OSError
| JSONDecodeError
| AssertionError
| OverflowError
| DockerException      (* docker.errors.BuildError, APIError, ... *)
| ConnectionError.     (* requests.exceptions.ConnectionError, Timeout *)

Record exn : Type := Exn { exn_cls : exn_class; exn_msg : string }.

(** [str(e)] *)
Definition str (e : exn) : string := exn_msg e.

Definition class_name (c : exn_class) : string :=
  match c with
  | ValueError => "ValueError"
  | ZeroDivisionError => "ZeroDivisionError"
  | IndexError => "IndexError"
  | KeyError => "KeyError"
  | TypeError => "TypeError"
  | AttributeError => "AttributeError"
  | FileNotFoundError => "FileNotFoundError"
  | OSError => "OSError"
  | JSONDecodeError => "json.decoder.JSONDecodeError"
  | AssertionError => "AssertionError"
  | OverflowError => "OverflowError"
  | DockerException => "docker.errors.DockerException"
  | ConnectionError => "requests.exceptions.ConnectionError"
  end.

(** [traceback.format_exc()] inside an [except] block handling [e]; the
    stack frames are not modelled, the last line is. *)
Definition format_exc (e : exn) : string :=
  "Traceback (most recent call last):" +:+
  String (Ascii.ascii_of_nat 10) (class_name (exn_cls e) +:+ ": " +:+ exn_msg e).

(** The result of running a piece of Python: a value or a raised
    exception. *)
Inductive outcome (A : Type) : Type :=
| Ret (a : A)
| Raise (e : exn).
Arguments Ret {A} a.
Arguments Raise {A} e.

Definition is_ret {A} (o : outcome A) : bool :=
  match o with Ret _ => true | Raise _ => false end.

(** A Python number, with the type it has at run time. *)
Inductive number : Type :=
| Int (n : Z)
| Float (x : Q).

Definition number_value (n : number) : Q :=
  match n with Int n => inject_Z n | Float x => x end.

(** Python's two-argument [min] and [max] on numbers: the first
    argument is kept unless the second is strictly smaller (larger). *)
Definition min (a b : Q) : Q := if Qle_bool a b then a else b.
Definition max (a b : Q) : Q := if Qle_bool b a then a else b.

(** [a / b] on floats raises [ZeroDivisionError] for a zero divisor. *)
Definition div (a b : Q) : outcome Q :=
  if Qeq_bool b 0 then Raise (Exn ZeroDivisionError "float division by zero")
  else Ret (a / b)%Q.

End Py.

(** ** [bot/environment.py]: class [Battery]

    Python floats are read as exact rationals: the clamping logic under
    study only compares, adds and scales.  What binary64 adds to that is
    outside this reading: rounding, and the non-finite values, which
    arise once an intermediate result overflows ([inf], and from it
    [inf * 0.0 = nan], which [min] and [max] then keep). *)

Module Battery.
Import Py.
Local Open Scope Q_scope.

Record t : Type := Make {
  capacity : Q;
  initial_charge : Q;
  charge_rate : Q;
  discharge_rate : Q;
  efficiency : Q;
  state_of_charge : Q
}.

Definition set_state_of_charge (b : t) (soc : Q) : t :=
  {| capacity := capacity b; initial_charge := initial_charge b;
     charge_rate := charge_rate b; discharge_rate := discharge_rate b;
     efficiency := efficiency b; state_of_charge := soc |}.

(** [__init__], with the default [efficiency = 0.9] left to the caller. *)
Definition init (capacity charge_rate discharge_rate initial_charge efficiency : Q) : t :=
  {| capacity := capacity; initial_charge := initial_charge;
     charge_rate := charge_rate; discharge_rate := discharge_rate;
     efficiency := efficiency;
     state_of_charge := Py.min initial_charge capacity |}.

Definition default_efficiency : Q := 9 # 10.

Definition reset (b : t) : t :=
  set_state_of_charge b (Py.min (initial_charge b) (capacity b)).

(** Returns the energy added and the battery after the call. *)
Definition charge (b : t) (power duration : Q) : Q * t :=
  let power := Py.min power (charge_rate b) in
  let energy_add_order := power * (duration / 60) * efficiency b in
  let energy_added := Py.min energy_add_order (capacity b - state_of_charge b) in
  (energy_added,
   set_state_of_charge b (Py.min (state_of_charge b + energy_add_order) (capacity b))).

(** Returns the energy removed and the battery after the call; raises
    when [efficiency] is zero, before any assignment to the battery. *)
Definition discharge (b : t) (power duration : Q) : outcome (Q * t) :=
  let power := Py.min power (discharge_rate b) in
  match Py.div (power * (duration / 60)) (efficiency b) with
  | Raise e => Raise e
  | Ret energy_remove_order =>
      let energy_removed := Py.min energy_remove_order (state_of_charge b) in
      Ret (energy_removed,
           set_state_of_charge b (Py.max (state_of_charge b - energy_remove_order) 0))
  end.

Definition get_state_of_charge (b : t) : Q := state_of_charge b.

(** The interval the state of charge is meant to stay in. *)
Definition soc_in_range (b : t) : Prop :=
  0 <= state_of_charge b /\ state_of_charge b <= capacity b.

(** Physically meaningful parameters. *)
Definition params_ok (b : t) : Prop :=
  0 <= initial_charge b /\ 0 <= charge_rate b /\
  0 <= discharge_rate b /\ 0 <= efficiency b.

End Battery.

(** ** [bot/environment.py]: class [Battery], beyond the finite floats

    The exact reading has neither [inf] nor [nan].  Here a float is a
    finite value, an infinity or a nan, and the three methods of
    [Battery] are read once more over such values.  Arithmetic on finite
    values is still exact, except that a result whose magnitude reaches
    the overflow threshold of binary64 becomes an infinity; the
    non-finite values behave as IEEE 754 has it and Python exposes it.
    The rounding of finite results, underflow to zero included, stays
    outside. *)

Module FloatBattery.
Import Py.
Local Open Scope Q_scope.

Inductive float : Type :=
| finite (x : Q)
| inf (negative : bool)
| nan.

(** From this magnitude on, round-to-nearest gives an infinity. *)
Definition overflow_threshold : Q := inject_Z (2 ^ 1024 - 2 ^ 970).

Definition of_exact (x : Q) : float :=
  if Qle_bool overflow_threshold x then inf false
  else if Qle_bool x (- overflow_threshold) then inf true
  else finite x.

Definition negative (x : Q) : bool := negb (Qle_bool 0 x).

Definition neg (a : float) : float :=
  match a with
  | finite x => finite (- x)
  | inf s => inf (negb s)
  | nan => nan
  end.

(** [a * b] *)
Definition mul (a b : float) : float :=
  match a, b with
  | nan, _ | _, nan => nan
  | finite x, finite y => of_exact (x * y)
  | inf s, finite y | finite y, inf s =>
      if Qeq_bool y 0 then nan else inf (xorb s (negative y))
  | inf s, inf s' => inf (xorb s s')
  end.

(** [a / b]: a zero divisor raises, whatever the dividend. *)
Definition truediv (a b : float) : outcome float :=
  match a, b with
  | _, finite y =>
      if Qeq_bool y 0 then Raise (Exn ZeroDivisionError "float division by zero")
      else match a with
           | finite x => Ret (of_exact (x / y))
           | inf s => Ret (inf (xorb s (negative y)))
           | nan => Ret nan
           end
  | nan, _ | _, nan => Ret nan
  | finite _, inf _ => Ret (finite 0)
  | inf _, inf _ => Ret nan
  end.

(** [a + b] and [a - b] *)
Definition add (a b : float) : float :=
  match a, b with
  | nan, _ | _, nan => nan
  | finite x, finite y => of_exact (x + y)
  | inf s, finite _ | finite _, inf s => inf s
  | inf s, inf s' => if Bool.eqb s s' then inf s else nan
  end.

Definition sub (a b : float) : float := add a (neg b).

(** [a < b] and [a <= b]: false as soon as a nan is compared. *)
Definition lt (a b : float) : bool :=
  match a, b with
  | nan, _ | _, nan => false
  | finite x, finite y => negb (Qle_bool y x)
  | inf s, finite _ => s
  | finite _, inf s => negb s
  | inf s, inf s' => (s && negb s')%bool
  end.

Definition le (a b : float) : bool :=
  match a, b with
  | nan, _ | _, nan => false
  | finite x, finite y => Qle_bool x y
  | inf s, finite _ => s
  | finite _, inf s => negb s
  | inf s, inf s' => (s || negb s')%bool
  end.

(** The built-in [min(a, b)] and [max(a, b)]: [a] unless [b < a]
    ([b > a]); a nan in first position is therefore kept. *)
Definition min (a b : float) : float := if lt b a then b else a.
Definition max (a b : float) : float := if lt a b then b else a.

Record t : Type := Make {
  capacity : float;
  initial_charge : float;
  charge_rate : float;
  discharge_rate : float;
  efficiency : float;
  state_of_charge : float
}.

Definition set_state_of_charge (b : t) (soc : float) : t :=
  {| capacity := capacity b; initial_charge := initial_charge b;
     charge_rate := charge_rate b; discharge_rate := discharge_rate b;
     efficiency := efficiency b; state_of_charge := soc |}.

Definition init (capacity charge_rate discharge_rate initial_charge efficiency : float) : t :=
  {| capacity := capacity; initial_charge := initial_charge;
     charge_rate := charge_rate; discharge_rate := discharge_rate;
     efficiency := efficiency;
     state_of_charge := min initial_charge capacity |}.

Definition reset (b : t) : t :=
  set_state_of_charge b (min (initial_charge b) (capacity b)).

Definition charge (b : t) (power duration : float) : outcome (float * t) :=
  let power := min power (charge_rate b) in
  match truediv duration (finite 60) with
  | Raise e => Raise e
  | Ret hours =>
      let energy_add_order := mul (mul power hours) (efficiency b) in
      let energy_added := min energy_add_order (sub (capacity b) (state_of_charge b)) in
      Ret (energy_added,
           set_state_of_charge b (min (add (state_of_charge b) energy_add_order) (capacity b)))
  end.

Definition discharge (b : t) (power duration : float) : outcome (float * t) :=
  let power := min power (discharge_rate b) in
  match truediv duration (finite 60) with
  | Raise e => Raise e
  | Ret hours =>
      match truediv (mul power hours) (efficiency b) with
      | Raise e => Raise e
      | Ret energy_remove_order =>
          let energy_removed := min energy_remove_order (state_of_charge b) in
          Ret (energy_removed,
               set_state_of_charge b (max (sub (state_of_charge b) energy_remove_order)
                                          (finite 0)))
      end
  end.

(** [0 <= state_of_charge <= capacity], as Python evaluates it. *)
Definition soc_in_range (b : t) : bool :=
  (le (finite 0) (state_of_charge b) && le (state_of_charge b) (capacity b))%bool.

(** Finite and not negative. *)
Definition finite_nonneg (a : float) : bool :=
  match a with
  | finite x => Qle_bool 0 x
  | _ => false
  end.

End FloatBattery.

(** ** [bot/environment.py]: class [BatteryEnv] *)

Module BatteryEnv.
Import Py.
Local Open Scope Q_scope.

(** A row of [market_data]: the price column and the other columns. *)
Record row : Type := Row { Market_Price : Q; columns : list (string * Q) }.

(** The dict returned by [get_info]. *)
Record info : Type := Info {
  info_total_profit : Q;
  info_profit_delta : Q;
  info_battery_soc : Q;
  info_max_charge_rate : Q;
  info_max_discharge_rate : Q;
  info_remaining_steps : Z
}.

Record t : Type := Make {
  battery : Battery.t;
  market_data : list row;
  dispatch_prices : list Q;   (* deque(maxlen=6), oldest first *)
  total_profit : Q;
  current_step : Z;
  episode_length : Z
}.

(** [np.mean] of a list that is not empty. *)
Definition mean (l : list Q) : Q :=
  foldr Qplus 0 l / inject_Z (Z.of_nat (length l)).

(** [deque.append] with [maxlen]. *)
Definition deque_append (maxlen : nat) (d : list Q) (x : Q) : list Q :=
  let d' := d ++ [x] in drop (length d' - maxlen) d'.

(** [market_data.iloc[i]] *)
Definition iloc (data : list row) (i : Z) : outcome row :=
  let n := Z.of_nat (length data) in
  let j := if (i <? 0)%Z then (i + n)%Z else i in
  match (if ((0 <=? j)%Z && (j <? n)%Z)%bool then data !! Z.to_nat j else None) with
  | Some r => Ret r
  | None => Raise (Exn IndexError "single positional indexer is out-of-bounds")
  end.

(** [__init__], the CSV file already read into [data]. *)
Definition init (capacity charge_rate discharge_rate initial_charge : Q)
           (data : list row) : t :=
  {| battery := Battery.init capacity charge_rate discharge_rate initial_charge
                             Battery.default_efficiency;
     market_data := data;
     dispatch_prices := [];
     total_profit := 0;
     current_step := 0;
     episode_length := Z.of_nat (length data) |}.

(** [BatteryEnv(data=...)] with the default battery. *)
Definition default (data : list row) : t := init 100 50 50 50 data.

Definition get_info (env : t) (profit_delta : Q) : info * t :=
  let total := total_profit env + profit_delta in
  let remaining_steps :=
    (Z.of_nat (length (market_data env)) - current_step env - 1)%Z in
  ({| info_total_profit := total;
      info_profit_delta := profit_delta;
      info_battery_soc := Battery.get_state_of_charge (battery env);
      info_max_charge_rate := Battery.charge_rate (battery env);
      info_max_discharge_rate := Battery.discharge_rate (battery env);
      info_remaining_steps := remaining_steps |},
   {| battery := battery env; market_data := market_data env;
      dispatch_prices := dispatch_prices env; total_profit := total;
      current_step := current_step env; episode_length := episode_length env |}).

Definition reset (env : t) (start_step : Z) (episode_length : option Z)
           (initial_soc : option Q) : outcome ((row * info) * t) :=
  let n := Z.of_nat (length (market_data env)) in
  let episode_length :=
    match episode_length with
    | Some l => if (l =? 0)%Z then (n - start_step)%Z else l
    | None => (n - start_step)%Z
    end in
  let initial_soc :=
    match initial_soc with
    | Some s => s
    | None => Battery.initial_charge (battery env)
    end in
  let b := Battery.set_state_of_charge (battery env)
             (Py.min initial_soc (Battery.capacity (battery env))) in
  let env := {| battery := b; market_data := market_data env;
                dispatch_prices := []; total_profit := 0;
                current_step := start_step; episode_length := episode_length |} in
  match iloc (market_data env) (current_step env) with
  | Raise e => Raise e
  | Ret r => let (i, env) := get_info env 0 in Ret ((r, i), env)
  end.

Definition set_battery (env : t) (b : Battery.t) : t :=
  {| battery := b; market_data := market_data env;
     dispatch_prices := dispatch_prices env; total_profit := total_profit env;
     current_step := current_step env; episode_length := episode_length env |}.

Definition process_action (env : t) (quantity spot_price : Q) : outcome (Q * t) :=
  let duration := 5 in
  if Qlt_le_dec 0 quantity then
    let (energy_added, b) := Battery.charge (battery env) quantity duration in
    Ret (- energy_added * (duration / 60) * spot_price, set_battery env b)
  else if Qlt_le_dec quantity 0 then
    match Battery.discharge (battery env) (- quantity) duration with
    | Raise e => Raise e
    | Ret (energy_removed, b) =>
        Ret (energy_removed * (duration / 60) * spot_price, set_battery env b)
    end
  else Ret (0, env).

(** [None] in the result stands for the pair [(None, None)]. *)
Definition step (env : t) (quantity : Q) : outcome (option (row * info) * t) :=
  let n := Z.of_nat (length (market_data env)) in
  if (n - 1 <=? current_step env)%Z then Ret (None, env)
  else
    match iloc (market_data env) (current_step env) with
    | Raise e => Raise e
    | Ret r =>
        let dispatch_price := Market_Price r in
        let prices := deque_append 6 (dispatch_prices env) dispatch_price in
        let env := {| battery := battery env; market_data := market_data env;
                      dispatch_prices := prices; total_profit := total_profit env;
                      current_step := current_step env;
                      episode_length := episode_length env |} in
        let spot_price := mean prices in
        match process_action env quantity spot_price with
        | Raise e => Raise e
        | Ret (profit_delta, env) =>
            let env := {| battery := battery env; market_data := market_data env;
                          dispatch_prices := dispatch_prices env;
                          total_profit := total_profit env;
                          current_step := (current_step env + 1)%Z;
                          episode_length := episode_length env |} in
            match iloc (market_data env) (current_step env) with
            | Raise e => Raise e
            | Ret r' => let (i, env) := get_info env profit_delta in Ret (Some (r', i), env)
            end
        end
    end.

End BatteryEnv.

(** ** [bot/policies]: the policy interface and the two policies *)

Module Policy.
Import Py BatteryEnv.
Local Open Scope Q_scope.

(** A policy class as [evaluate.py] uses it: a constructor taking the
    configured parameters and a method [act(state, info)].  Both are
    code of the submission; they run in the evaluating process, so
    besides the object's own state they can read and advance the
    process-wide generators of [random] and [numpy.random], whose joint
    state has type [gen]. *)
Record class (gen : Type) : Type := Class {
  class_name : string;
  object : Type;
  construct : list (string * number) -> gen -> outcome object * gen;
  act : object -> row -> info -> gen -> (Q * object) * gen
}.
Arguments class_name {gen} c.
Arguments object {gen} c.
Arguments construct {gen} c params g.
Arguments act {gen} c self state info g.

(** The keyword arguments that [main] unpacks from the [parameters]
    dict when it calls the policy class: the items of a dict whose
    values are numbers. *)
Fixpoint kwarg (params : list (string * number)) (k : string) : option number :=
  match params with
  | [] => None
  | (k', v) :: params' => if String.eqb k' k then Some v else kwarg params' k
  end.

(** The first keyword of the call for which [__init__] has no
    parameter; the call raises [TypeError] for it before the body of
    [__init__] runs. *)
Fixpoint unexpected_keyword (names : list string) (params : list (string * number))
  : option string :=
  match params with
  | [] => None
  | (k, _) :: params' =>
      if existsb (String.eqb k) names then unexpected_keyword names params'
      else Some k
  end.

Definition unexpected_keyword_error (cls k : string) : exn :=
  Exn TypeError
      (cls +:+ ".__init__() got an unexpected keyword argument '" +:+ k +:+ "'").

(** [policies/simple.py]: [__init__(self, quantity=10)]. *)
Definition SimplePolicy (gen : Type) : class gen :=
  {| class_name := "SimplePolicy";
     object := Q;
     construct := fun params g =>
       match unexpected_keyword ["quantity"] params with
       | Some k => (Raise (unexpected_keyword_error "SimplePolicy" k), g)
       | None =>
           (Ret (match kwarg params "quantity" with
                 | Some q => number_value q
                 | None => 10
                 end), g)
       end;
     act := fun self _ _ g => ((self, self), g) |}.

(** [deque(maxlen=window_size)] for a number: the bound must be an
    [int] that fits a C [ssize_t] (64 bits here) and is not negative. *)
Definition deque_maxlen (window_size : number) : outcome nat :=
  match window_size with
  | Float _ => Raise (Exn TypeError "an integer is required")
  | Int n =>
      if ((n <? - 2 ^ 63) || (2 ^ 63 <=? n))%Z
      then Raise (Exn OverflowError "Python int too large to convert to C ssize_t")
      else if (n <? 0)%Z
      then Raise (Exn ValueError "maxlen must be non-negative")
      else Ret (Z.to_nat n)
  end.

(** [policies/moving_average.py]: [__init__(self, window_size=5)]; the
    object is the window size and the price history, oldest first. *)
Definition MovingAveragePolicy (gen : Type) : class gen :=
  {| class_name := "MovingAveragePolicy";
     object := nat * list Q;
     construct := fun params g =>
       match unexpected_keyword ["window_size"] params with
       | Some k => (Raise (unexpected_keyword_error "MovingAveragePolicy" k), g)
       | None =>
           match deque_maxlen (match kwarg params "window_size" with
                               | Some n => n
                               | None => Int 5
                               end) with
           | Raise e => (Raise e, g)
           | Ret window_size => (Ret (window_size, []), g)
           end
       end;
     act := fun self state info g =>
       let '(window_size, price_history) := self in
       let market_price := Market_Price state in
       let price_history := deque_append window_size price_history market_price in
       let quantity :=
         if (length price_history =? window_size)%nat then
           match price_history with
           | [] => info_max_charge_rate info      (* the mean is nan: not greater *)
           | _ :: _ =>
               if Qlt_le_dec (mean price_history) market_price
               then - info_max_discharge_rate info
               else info_max_charge_rate info
           end
         else 0 in
       ((quantity, (window_size, price_history)), g) |}.

End Policy.

(** ** [bot/evaluate.py] *)

Module Evaluate.
Import Py BatteryEnv.
Local Open Scope Q_scope.

(** The dict appended to [all_trials]. *)
Record trial : Type := Trial {
  actions : list Q;
  profits : list Q;
  socs : list Q;
  market_prices : list Q;
  start_step : Z;
  trial_episode_length : Z
}.

(** The dict [outcome] written to the output file. *)
Record artifact : Type := Artifact {
  art_class_name : string;
  art_parameters : list (string * number);
  mean_profit : Q;
  std_profit : Q;
  num_runs : Z;
  score : Q;
  trials : list trial;
  main_trial_idx : Z
}.

(** What is not in the repository: the generators behind [random] and
    [numpy.random], and numpy's statistics of a list of floats. *)
Record library : Type := Library {
  gen : Type;
  seeded : Z -> outcome gen;                      (* state after random.seed(s); np.random.seed(s) *)
  randint : Z -> Z -> gen -> outcome Z * gen;     (* random.randint(a, b) *)
  np_mean : list Q -> Q;                          (* float(np.mean(l)) *)
  np_std : list Q -> Q                            (* float(np.std(l)) *)
}.

(** What differs from one run of the program to the next although the
    command line, the submission and the data are the same. *)
Record ambient (L : library) : Type := Ambient {
  initial_generators : gen L;     (* seeded by the interpreter from the system's entropy *)
  now : string                    (* datetime.now().strftime(...) *)
}.
Arguments initial_generators {L} a.
Arguments now {L} a.

Section WithLibrary.
Context (L : library) (policy_class : Policy.class (gen L)).

Definition set_seed (seed : Z) : outcome (gen L) := seeded L seed.

(** The [while True] loop of [run_trial]; [None] when [fuel] runs out
    before [step] returns [None]. *)
Fixpoint run_trial_loop (fuel : nat) (env : BatteryEnv.t)
         (policy : Policy.object policy_class) (g : gen L)
         (state : row) (info : info) (acc : trial)
  : option (outcome (trial * BatteryEnv.t * Policy.object policy_class) * gen L) :=
  match fuel with
  | O => None
  | S fuel' =>
      let '((action, policy), g) := Policy.act policy_class policy state info g in
      match BatteryEnv.step env action with
      | Raise e => Some (Raise e, g)
      | Ret (None, env) => Some (Ret (acc, env, policy), g)
      | Ret (Some (state', info'), env) =>
          run_trial_loop fuel' env policy g state' info'
            {| actions := actions acc ++ [action];
               profits := profits acc ++ [info_total_profit info'];
               socs := socs acc ++ [info_battery_soc info'];
               market_prices := market_prices acc ++ [Market_Price state'];
               start_step := start_step acc;
               trial_episode_length := trial_episode_length acc |}
      end
  end.

Definition run_trial (env : BatteryEnv.t) (policy : Policy.object policy_class)
           (g : gen L) (start_step episode_length : Z)
  : option (outcome (trial * BatteryEnv.t * Policy.object policy_class) * gen L) :=
  match BatteryEnv.reset env start_step (Some episode_length) None with
  | Raise e => Some (Raise e, g)
  | Ret ((state, info), env) =>
      run_trial_loop (S (length (market_data env))) env policy g state info
        {| actions := []; profits := []; socs := []; market_prices := [];
           start_step := start_step; trial_episode_length := episode_length |}
  end.

(** The first loop of [main]: [for trial in range(trials - 1)], from
    [trial] on, [count] rounds. *)
Fixpoint draw_episodes (count : nat) (trial : Z) (seed n : Z)
         (start_steps episode_lengths : list Z) (g : gen L)
  : outcome (list Z * list Z) * gen L :=
  match count with
  | O => (Ret (start_steps, episode_lengths), g)
  | S count' =>
      match set_seed (seed + trial) with
      | Raise e => (Raise e, g)
      | Ret g =>
          match randint L 0 (n - 1) g with
          | (Raise e, g) => (Raise e, g)
          | (Ret start_step, g) =>
              match randint L 1 (n - start_step) g with
              | (Raise e, g) => (Raise e, g)
              | (Ret episode_length, g) =>
                  draw_episodes count' (trial + 1) seed n
                    (start_steps ++ [start_step])
                    (episode_lengths ++ [episode_length]) g
              end
          end
      end
  end.

(** The second loop of [main]:
    [for start_step, episode_length in zip(start_steps, episode_lengths)]. *)
Fixpoint run_trials (episodes : list (Z * Z)) (env : BatteryEnv.t)
         (policy : Policy.object policy_class) (g : gen L)
         (total_profits : list Q) (all_trials : list trial)
  : option (outcome (list Q * list trial)) :=
  match episodes with
  | [] => Some (Ret (total_profits, all_trials))
  | (start_step, episode_length) :: episodes' =>
      match run_trial env policy g start_step episode_length with
      | None => None
      | Some (Raise e, _) => Some (Raise e)
      | Some (Ret (t, env, policy), g) =>
          run_trials episodes' env policy g
            (total_profits ++ profits t) (all_trials ++ [t])
      end
  end.

(** [main], from parsed arguments: the artifact and the path it is
    written to.  [None] when a trial ran out of fuel. *)
Definition main (trials seed : Z) (data : list row) (parameters : list (string * number))
           (output_file : option string) (a : ambient L)
  : option (outcome (artifact * string)) :=
  match Policy.construct policy_class parameters (initial_generators a) with
  | (Raise e, _) => Some (Raise e)
  | (Ret policy, g) =>
      let battery_environment := BatteryEnv.default data in
      let output_file :=
        match output_file with
        | Some f => if String.eqb f "" then None else Some f
        | None => None
        end in
      let output_file :=
        match output_file with
        | Some f => f
        | None => "bot/results/" +:+ now a +:+ "_"
                  +:+ Policy.class_name policy_class +:+ ".json"
        end in
      match set_seed seed with
      | Raise e => Some (Raise e)
      | Ret g =>
          let n := Z.of_nat (length (market_data battery_environment)) in
          match draw_episodes (Z.to_nat (trials - 1)) 0 seed n [0%Z] [n] g with
          | (Raise e, _) => Some (Raise e)
          | (Ret (start_steps, episode_lengths), g) =>
              match run_trials (zip start_steps episode_lengths)
                      battery_environment policy g [] [] with
              | None => None
              | Some (Raise e) => Some (Raise e)
              | Some (Ret (total_profits, all_trials)) =>
                  let avg_profit := np_mean L total_profits in
                  let std_profit := np_std L total_profits in
                  Some (Ret ({| art_class_name := Policy.class_name policy_class;
                                art_parameters := parameters;
                                mean_profit := avg_profit;
                                std_profit := std_profit;
                                num_runs := trials;
                                score := avg_profit;
                                trials := all_trials;
                                main_trial_idx := 0 |},
                             output_file))
              end
          end
      end
  end.

(** The artifact of a run, without the path it is written to. *)
Definition produced_artifact (r : option (outcome (artifact * string)))
  : option (outcome artifact) :=
  match r with
  | None => None
  | Some (Raise e) => Some (Raise e)
  | Some (Ret (a, _)) => Some (Ret a)
  end.

End WithLibrary.
End Evaluate.

(** ** JSON-like Python values handled by the submission backend *)

Module Value.
Import Py.

(** What [json.load] can return, plus the [Decimal] the store wants
    instead of a float.  A nested dict keeps its items in order. *)
Inductive value : Type :=
| VNone
| VBool (b : bool)
| VInt (n : Z)
| VFloat (x : Q)
| VDecimal (x : Q)
| VStr (s : string)
| VList (l : list value)
| VDict (d : list (string * value)).

(** A top-level dict with string keys: a submission record. *)
Abbreviation record := (gmap string value).

(** [d.get(k)] on the items of a dict: the last binding of [k] wins, as
    after [json.load]. *)
Fixpoint assoc_get (d : list (string * value)) (k : string) : option value :=
  match d with
  | [] => None
  | (k', v) :: d' =>
      match assoc_get d' k with
      | Some v' => Some v'
      | None => if String.eqb k' k then Some v else None
      end
  end.

(** [seq[i]] for a sequence of kind [kind] ("list", "string") and an
    int index, negative indices counting from the end. *)
Definition seq_getitem (kind : string) (l : list value) (i : Z) : outcome value :=
  let n := Z.of_nat (length l) in
  let j := if (i <? 0)%Z then (i + n)%Z else i in
  if ((0 <=? j)%Z && (j <? n)%Z)%bool then
    match l !! Z.to_nat j with
    | Some v => Ret v
    | None => Raise (Exn IndexError (kind +:+ " index out of range"))
    end
  else Raise (Exn IndexError (kind +:+ " index out of range")).

Definition list_getitem (l : list value) (i : Z) : outcome value :=
  seq_getitem "list" l i.

(** The characters of a [str], each a [str] of length one. *)
Definition characters (s : string) : list value :=
  (fun c => VStr (String c EmptyString)) <$> String.list_ascii_of_string s.

(** [type(v).__name__] *)
Definition type_name (v : value) : string :=
  match v with
  | VNone => "NoneType"
  | VBool _ => "bool"
  | VInt _ => "int"
  | VFloat _ => "float"
  | VDecimal _ => "decimal.Decimal"
  | VStr _ => "str"
  | VList _ => "list"
  | VDict _ => "dict"
  end.

(** [str(KeyError(k))] for a string key: its [repr], here for a key
    without quotes or escapes. *)
Definition key_error (k : string) : exn := Exn KeyError ("'" +:+ k +:+ "'").

(** [container[index]].  A [bool] is an [int]: [True] indexes a list
    or a string as 1 and [False] as 0.  The keys of a dict read from
    JSON are strings, so any other hashable index is a missing key (the
    [repr] of the key, which is the message, is not modelled for those)
    and a list or dict index is unhashable. *)
Definition getitem (container index : value) : outcome value :=
  match container, index with
  | VList l, VInt i => list_getitem l i
  | VList l, VBool b => list_getitem l (if b then 1 else 0)%Z
  | VList _, _ => Raise (Exn TypeError "list indices must be integers or slices")
  | VDict d, VStr k =>
      match assoc_get d k with
      | Some v => Ret v
      | None => Raise (key_error k)
      end
  | VDict _, (VList _ | VDict _) =>
      Raise (Exn TypeError ("unhashable type: '" +:+ type_name index +:+ "'"))
  | VDict _, _ => Raise (Exn KeyError "")
  | VStr s, VInt i => seq_getitem "string" (characters s) i
  | VStr s, VBool b => seq_getitem "string" (characters s) (if b then 1 else 0)%Z
  | VStr _, _ => Raise (Exn TypeError "string indices must be integers")
  | _, _ =>
      Raise (Exn TypeError ("'" +:+ type_name container +:+ "' object is not subscriptable"))
  end.

(** [record[k]] *)
Definition record_getitem (r : record) (k : string) : outcome value :=
  match r !! k with
  | Some v => Ret v
  | None => Raise (key_error k)
  end.

(** [for k, v in output.items(): submission[k] = v]; only a dict has
    [items]. *)
Definition update_from_items (submission : record) (output : value) : outcome record :=
  match output with
  | VDict d => Ret (foldl (fun (s : record) kv => <[kv.1 := kv.2]> s) submission d)
  | _ => Raise (Exn AttributeError "object has no attribute 'items'")
  end.

(** The ["status"] field of a record, when it is a string. *)
Definition status_of (r : record) : option string :=
  match r !! "status" with
  | Some (VStr s) => Some s
  | _ => None
  end.

Definition is_terminal (s : string) : bool :=
  (String.eqb s "success" || String.eqb s "failed")%bool.

End Value.

(** ** [submission_backend/db.py]: value conversion *)

Module DbConvert.
Import Py Value.

(** [Decimal(str(obj))] for a float.  Only the change of type is
    modelled: the shortest-repr printing of a binary float and its
    parsing as a decimal are outside this embedding. *)
Fixpoint convert_floats_to_decimal (obj : value) : value :=
  match obj with
  | VFloat x => VDecimal x
  | VList l => VList (List.map convert_floats_to_decimal l)
  | VDict d => VDict (List.map (fun kv => (kv.1, convert_floats_to_decimal kv.2)) d)
  | _ => obj
  end.

Definition decimal_default (obj : value) : outcome value :=
  match obj with
  | VDecimal x => Ret (VFloat x)
  | _ => Raise (Exn TypeError "Type not serializable")
  end.

(** The top-level call is on a dict: a dict comprehension over its items. *)
Definition convert_record (r : record) : record := convert_floats_to_decimal <$> r.

End DbConvert.

(** ** The outside world of the submission backend *)

Module World.
Import Py Value.

(** A file's content as [json.load] sees it. *)
Inductive content : Type :=
| Json (v : value)          (* well-formed JSON denoting [v] *)
| Malformed (text : string).

Inductive fsnode : Type :=
| Dir
| File (c : content).

Inductive container_state : Type := Running | Exited.

(** A tag of the GitHub tag listing: [{name, commit: {sha}}]. *)
Record tag : Type := Tag { tag_name : string; tag_commit_sha : string }.

(** The part of a [requests] response the code reads. *)
Record response : Type := Response { status_code : Z; json : list tag }.

(** What the outside answers.  Every outside call is numbered by the
    [tick] at which it is made; an environment fixes the answer to each
    numbered call, so a property proved for every environment holds
    whatever GitHub, Docker, git and the store do. *)
Record environment : Type := Environment {
  cwd : string;                                   (* os.getcwd() *)
  clock_ms : nat -> Z;                            (* int(round(time.time() * 1000)) *)
  http_get : nat -> string -> outcome response;   (* requests.get(url, headers) *)
  put_item_status : nat -> Z;                     (* HTTPStatusCode of table.put_item *)
  git_clone : nat -> bool;                        (* does [git clone] create the directory *)
  uuid4 : nat -> string;                          (* str(uuid.uuid4()) *)
  docker_build : nat -> option exn;               (* client.images.build raises? *)
  docker_run : nat -> option exn;                 (* client.containers.run raises? *)
  docker_logs : nat -> option exn;                (* container.logs(stream=True) raises? *)
  docker_stop : nat -> option exn;                (* container.stop raises? *)
  docker_remove : nat -> option exn;              (* container.remove raises? *)
  docker_rmi : nat -> option exn;                 (* client.images.remove raises? *)
  program_output : nat -> option content          (* what the container leaves as output.json *)
}.

Record world : Type := MkWorld {
  tick : nat;
  table : gmap (string * string) record;          (* DynamoDB table, key (team, commit_hash) *)
  files : gmap string fsnode;                     (* host file system *)
  images : gset string;                           (* image tags known to the daemon *)
  containers : gmap nat (string * container_state);  (* container id -> (image, state) *)
  (* Observation logs, newest first; the program never reads them. *)
  put_log : list record;                          (* items handed to table.put_item *)
  eval_log : list (string * string);              (* (repo_name, commit_sha) of run_evaluation calls *)
  poll_log : list string                          (* repo_name of check_submission_tags calls *)
}.

Definition set_tick (w : world) (n : nat) : world :=
  MkWorld n (table w) (files w) (images w) (containers w) (put_log w) (eval_log w) (poll_log w).
Definition set_table (w : world) (t : gmap (string * string) record) : world :=
  MkWorld (tick w) t (files w) (images w) (containers w) (put_log w) (eval_log w) (poll_log w).
Definition set_files (w : world) (f : gmap string fsnode) : world :=
  MkWorld (tick w) (table w) f (images w) (containers w) (put_log w) (eval_log w) (poll_log w).
Definition set_images (w : world) (i : gset string) : world :=
  MkWorld (tick w) (table w) (files w) i (containers w) (put_log w) (eval_log w) (poll_log w).
Definition set_containers (w : world) (c : gmap nat (string * container_state)) : world :=
  MkWorld (tick w) (table w) (files w) (images w) c (put_log w) (eval_log w) (poll_log w).
Definition set_put_log (w : world) (l : list record) : world :=
  MkWorld (tick w) (table w) (files w) (images w) (containers w) l (eval_log w) (poll_log w).
Definition set_eval_log (w : world) (l : list (string * string)) : world :=
  MkWorld (tick w) (table w) (files w) (images w) (containers w) (put_log w) l (poll_log w).
Definition set_poll_log (w : world) (l : list string) : world :=
  MkWorld (tick w) (table w) (files w) (images w) (containers w) (put_log w) (eval_log w) l.

Definition next_tick (w : world) : world := set_tick w (S (tick w)).

(** *** Python code acting on the world *)

Definition M (A : Type) : Type := world -> outcome A * world.

Definition ret {A} (a : A) : M A := fun w => (Ret a, w).
Definition raise {A} (e : exn) : M A := fun w => (Raise e, w).
Definition bind {A B} (m : M A) (k : A -> M B) : M B :=
  fun w => match m w with
           | (Ret a, w') => k a w'
           | (Raise e, w') => (Raise e, w')
           end.
Definition lift {A} (o : outcome A) : M A := fun w => (o, w).

(** [try: body / except Exception as e: handler(e)] *)
Definition try_except {A} (body : M A) (handler : exn -> M A) : M A :=
  fun w => match body w with
           | (Ret a, w') => (Ret a, w')
           | (Raise e, w') => handler e w'
           end.

(** [try: body / finally: final]; an exception of [final] replaces the
    pending one. *)
Definition try_finally {A} (body : M A) (final : M unit) : M A :=
  fun w => match body w with
           | (r, w') =>
               match final w' with
               | (Ret _, w'') => (r, w'')
               | (Raise e, w'') => (Raise e, w'')
               end
           end.

(** [for x in l: body(x)] *)
Fixpoint for_each {A} (l : list A) (body : A -> M unit) : M unit :=
  match l with
  | [] => ret tt
  | x :: l' => bind (body x) (fun _ => for_each l' body)
  end.

Definition get {A} (f : world -> A) : M A := fun w => (Ret (f w), w).
Definition modify (f : world -> world) : M unit := fun w => (Ret tt, f w).

(** Announce an outside call: returns its number. *)
Definition outside_call : M nat := fun w => (Ret (tick w), next_tick w).

End World.

Declare Scope py_scope.
Delimit Scope py_scope with py.
Notation "'do' x <- m ; k" := (World.bind m (fun x => k))
  (at level 10, x name, m at level 100, k at level 200) : py_scope.
Notation "'run' m ; k" := (World.bind m (fun _ => k))
  (at level 10, m at level 100, k at level 200) : py_scope.

(** ** Strings and paths *)

Module Str.

Fixpoint startswith (prefix s : string) : bool :=
  match prefix, s with
  | EmptyString, _ => true
  | String a p', String b s' => (Ascii.eqb a b && startswith p' s')%bool
  | String _ _, EmptyString => false
  end.

(** Python's [needle in hay] on strings. *)
Fixpoint contains (needle hay : string) : bool :=
  (startswith needle hay ||
   match hay with
   | EmptyString => false
   | String _ hay' => contains needle hay'
   end)%bool.

Fixpoint endswith_slash (s : string) : bool :=
  match s with
  | EmptyString => false
  | String c EmptyString => Ascii.eqb c "/"%char
  | String _ s' => endswith_slash s'
  end.

(** [os.path.join(a, b)] on POSIX. *)
Definition path_join (a b : string) : string :=
  if startswith "/" b then b
  else if (String.eqb a "" || endswith_slash a)%bool then a +:+ b
  else a +:+ "/" +:+ b.

Fixpoint last_segment_from (acc s : string) : string :=
  match s with
  | EmptyString => acc
  | String c s' =>
      if Ascii.eqb c "/"%char then last_segment_from "" s'
      else last_segment_from (acc +:+ String c EmptyString) s'
  end.

(** [s.split('/')[-1]] *)
Definition last_segment (s : string) : string := last_segment_from "" s.

End Str.

(** ** [submission_backend/db.py]: class [DBClient] *)

Module Db.
Import Py Value World DbConvert.
Local Open Scope py_scope.

Section WithEnvironment.
Context (E : environment).

(** The composite key of an item; the table's key attributes are
    strings. *)
Definition key_of (item : record) : option (string * string) :=
  match item !! "team", item !! "commit_hash" with
  | Some (VStr team), Some (VStr commit_hash) => Some (team, commit_hash)
  | _, _ => None
  end.

(** [self.table.get_item(Key=...)]: the response has an ['Item'] when
    the key is present. *)
Definition get_item (team commit_hash : string) : M (option record) :=
  get (fun w => table w !! (team, commit_hash)).

(** [self.table.put_item(Item=item)]: returns the HTTP status code.
    The store keeps the item, replacing any item under the same key,
    when it answers 200; an item without a string key is refused. *)
Definition put_item (item : record) : M Z :=
  do t <- outside_call;
  run modify (fun w => set_put_log w (item :: put_log w));
  match key_of item with
  | None => ret 400%Z
  | Some k =>
      let status := put_item_status E t in
      if (status =? 200)%Z
      then run modify (fun w => set_table w (<[k := item]> (table w))); ret status
      else ret status
  end.

Definition is_already_submitted (team submission_hash : string) : M bool :=
  do response <- get_item team submission_hash;
  ret (bool_decide (is_Some response)).

(** The item [submit] hands to [put_item] when called in world [w]. *)
Definition stored_item (w : world) (submission : record) : record :=
  <["submitted_at" := VInt (clock_ms E (tick w))]> (convert_record submission).

Definition submit (submission : record) : M bool :=
  if negb (bool_decide (is_Some (submission !! "team"))) then
    raise (Exn AssertionError "team (primary key) not found")
  else if negb (bool_decide (is_Some (submission !! "commit_hash"))) then
    raise (Exn AssertionError "commit_hash (secondary key) not found")
  else
    do now <- get (fun w => clock_ms E (tick w));
    let cloned_submission :=
      <["submitted_at" := VInt now]> (convert_record submission) in
    do status <- put_item cloned_submission;
    ret (status =? 200)%Z.

(** *** [submit] in closed form, for stating properties

    Whether the store accepts the item [submit] builds in world [w],
    and the world [submit] leaves. *)
Definition put_accepted (w : world) (submission : record) : bool :=
  match key_of (stored_item w submission) with
  | Some _ => (put_item_status E (tick w) =? 200)%Z
  | None => false
  end.

Definition after_submit (w : world) (submission : record) : world :=
  let item := stored_item w submission in
  let w1 := set_put_log (next_tick w) (item :: put_log w) in
  match key_of item with
  | Some k =>
      if (put_item_status E (tick w) =? 200)%Z
      then set_table w1 (<[k := item]> (table w1))
      else w1
  | None => w1
  end.

End WithEnvironment.
End Db.

(** ** [submission_backend/dock.py] *)

Module Dock.
Import Py Value World.
Local Open Scope py_scope.

Section WithEnvironment.
Context (E : environment).

(** *** File system calls *)

Definition path_exists (path : string) : M bool :=
  get (fun w => bool_decide (is_Some (files w !! path))).

(** [with open(path, 'r') as f: ...] up to reading the content. *)
Definition open_read (path : string) : M content :=
  do node <- get (fun w => files w !! path);
  match node with
  | Some (File c) => ret c
  | Some Dir => raise (Exn OSError ("Is a directory: " +:+ path))
  | None => raise (Exn FileNotFoundError ("No such file or directory: " +:+ path))
  end.

Definition json_load (c : content) : outcome value :=
  match c with
  | Json v => Ret v
  | Malformed _ => Raise (Exn JSONDecodeError "Expecting value")
  end.

Definition os_remove (path : string) : M unit :=
  do node <- get (fun w => files w !! path);
  match node with
  | Some (File _) => modify (fun w => set_files w (delete path (files w)))
  | Some Dir => raise (Exn OSError ("Is a directory: " +:+ path))
  | None => raise (Exn FileNotFoundError ("No such file or directory: " +:+ path))
  end.

(** *** Docker daemon calls *)

Definition new_uuid : M string :=
  do t <- outside_call; ret (uuid4 E t).

(** [client.images.build(path=path, tag=tag)] *)
Definition images_build (path tag : string) : M unit :=
  do t <- outside_call;
  match docker_build E t with
  | Some e => raise e
  | None => modify (fun w => set_images w ({[tag]} ∪ images w))
  end.

(** [client.containers.run(tag, command=..., volumes=..., detach=True)]:
    the handle is the container's id. *)
Definition containers_run (tag : string) : M nat :=
  do t <- outside_call;
  match docker_run E t with
  | Some e => raise e
  | None =>
      run modify (fun w => set_containers w (<[t := (tag, Running)]> (containers w)));
      ret t
  end.

(** [for line in container.logs(stream=True)]: the stream ends when
    the program exits, by when it has written its output file, if it
    writes one, at [output_file] on the bind mount. *)
Definition container_logs (container : nat) (output_file : string) : M unit :=
  do t <- outside_call;
  match docker_logs E t with
  | Some e => raise e
  | None =>
      modify (fun w =>
        let w := set_containers w (alter (fun c => (c.1, Exited)) container (containers w)) in
        match program_output E t with
        | Some c => set_files w (<[output_file := File c]> (files w))
        | None => w
        end)
  end.

Definition container_stop (container : nat) : M unit :=
  do t <- outside_call;
  match docker_stop E t with
  | Some e => raise e
  | None =>
      modify (fun w =>
        set_containers w (alter (fun c => (c.1, Exited)) container (containers w)))
  end.

Definition container_remove (container : nat) : M unit :=
  do t <- outside_call;
  match docker_remove E t with
  | Some e => raise e
  | None => modify (fun w => set_containers w (delete container (containers w)))
  end.

(** [client.images.remove(tag)] *)
Definition images_remove (tag : string) : M unit :=
  do t <- outside_call;
  match docker_rmi E t with
  | Some e => raise e
  | None => modify (fun w => set_images w (images w ∖ {[tag]}))
  end.

(** *** The functions of [dock.py] *)

Definition save_docker_submission (output_directory submission_directory : string)
  : M unit :=
  do exists_out <- path_exists output_directory;
  if negb exists_out then
    raise (Exn ValueError ("Output directory " +:+ output_directory +:+ " does not exist"))
  else
  do exists_sub <- path_exists submission_directory;
  if negb exists_sub then
    raise (Exn ValueError ("Submission path " +:+ submission_directory +:+ " does not exist"))
  else
  do docker_image_tag <- new_uuid;
  run images_build submission_directory docker_image_tag;
  do container <- containers_run docker_image_tag;
  run container_logs container (Str.path_join output_directory "output.json");
  run container_stop container;
  run container_remove container;
  images_remove docker_image_tag.

Definition get_submission_output (output_directory submission_directory : string)
  : M value :=
  run save_docker_submission output_directory submission_directory;
  do f <- open_read (Str.path_join output_directory "output.json");
  do data <- lift (json_load f);
  run os_remove (Str.path_join output_directory "output.json");
  ret data.

End WithEnvironment.
End Dock.

(** ** [submission_backend/poll.py] *)

Module Poll.
Import Py Value World.
Local Open Scope py_scope.

Definition GITHUB_API : string := "https://api.github.com".
Definition SUBMISSION_DIR : string := "submissions".
Definition REPOS : list string :=
  ["MLAI-AUS-Inc/trading-bot-test-team"; "MLAI-AUS-Inc/trading-bot"].

(** The loop of [check_submission_tags] over [response.json()]. *)
Definition collect_submission_tags (tags : list tag) : list (string * string) :=
  foldl (fun submission_tags tag =>
           if Str.contains "submission" (tag_name tag)
           then submission_tags ++ [(tag_name tag, tag_commit_sha tag)]
           else submission_tags)
        [] tags.

(** The test of that loop and the pair it appends. *)
Definition is_submission_tag (t : tag) : bool :=
  Str.contains "submission" (tag_name t).

Definition tag_pair (t : tag) : string * string := (tag_name t, tag_commit_sha t).

(** The part of [check_submission_tags] after the request returned. *)
Definition submission_tags_of_response (response : response) : list (string * string) :=
  if (status_code response =? 200)%Z
  then collect_submission_tags (json response)
  else [].

Definition base_submission (repo_name commit_sha : string) : record :=
  <["team" := VStr repo_name]> (
  <["commit_hash" := VStr commit_sha]> (
  <["score" := VInt 0]> (
  <["error" := VNone]> (
  <["error_traceback" := VNone]> (
  <["status" := VStr "pending"]> ∅))))).

(** The body of the [try] in [submit_output] after [run_evaluation]
    returned [output]. *)
Definition success_submission (base : record) (output : value) : outcome record :=
  match update_from_items base output with
  | Raise e => Raise e
  | Ret submission =>
      match record_getitem submission "trials" with
      | Raise e => Raise e
      | Ret trials =>
          match record_getitem submission "main_trial_idx" with
          | Raise e => Raise e
          | Ret idx =>
              match getitem trials idx with
              | Raise e => Raise e
              | Ret main_trial =>
                  let submission := <["main_trial" := main_trial]> submission in
                  let submission := delete "trials" submission in
                  Ret (<["status" := VStr "success"]> submission)
              end
          end
      end
  end.

(** The [except Exception as e] branch of [submit_output]. *)
Definition failed_submission (base : record) (e : exn) : record :=
  <["status" := VStr "failed"]> (
  <["error_traceback" := VStr (format_exc e)]> (
  <["error" := VStr (str e)]> base)).

(** The record written when the placeholder could not be written. *)
Definition preliminary_failure (base : record) : record :=
  <["error" := VStr "Failed to submit preliminary submission to database"]> (
  <["status" := VStr "failed"]> base).

(** [repo_dir] as [run_evaluation] resolves its default. *)
Definition resolve_repo_dir (repo_name : string) (repo_dir : option string) : string :=
  match repo_dir with
  | None => SUBMISSION_DIR +:+ "/" +:+ Str.last_segment repo_name
  | Some d => d
  end.

(** The world after a poll of [repo_name] that found nothing to do. *)
Definition polled (repo_name : string) (w : world) : world :=
  next_tick (set_poll_log w (repo_name :: poll_log w)).

(** The world once a call of [run_evaluation] is on record. *)
Definition logged (repo_name commit_sha : string) (w : world) : world :=
  set_eval_log w ((repo_name, commit_sha) :: eval_log w).

Section WithEnvironment.
Context (E : environment).

Definition check_submission_tags (repo_name : string) : M (list (string * string)) :=
  let url := GITHUB_API +:+ "/repos/" +:+ repo_name +:+ "/tags" in
  run modify (fun w => set_poll_log w (repo_name :: poll_log w));
  do t <- outside_call;
  do response <- lift (http_get E t url);
  ret (submission_tags_of_response response).

(** [os.system(f"git clone {url} {repo_dir}")]; the exit status is
    ignored by the caller. *)
Definition os_system_git_clone (repo_dir : string) : M unit :=
  do t <- outside_call;
  if git_clone E t
  then modify (fun w => set_files w (<[repo_dir := Dir]> (files w)))
  else ret tt.

(** [os.system(f"rm -rf {repo_dir}")] *)
Definition os_system_rm_rf (repo_dir : string) : M unit :=
  modify (fun w => set_files w (delete repo_dir (files w))).

Definition run_evaluation (repo_name tag_name commit_sha : string)
           (repo_dir : option string) (clone : bool) : M value :=
  run modify (logged repo_name commit_sha);
  let repo_dir := resolve_repo_dir repo_name repo_dir in
  let output_directory := Str.path_join (cwd E) "output" in
  if clone then
    do dir_exists <- Dock.path_exists repo_dir;
    if dir_exists then
      raise (Exn ValueError
               ("The evaluation pipeline was just asked to clone into " +:+ repo_dir
                +:+ " but that directory already exists"))
    else
      try_finally
        (run os_system_git_clone repo_dir;
         Dock.get_submission_output E output_directory repo_dir)
        (os_system_rm_rf repo_dir)
  else Dock.get_submission_output E output_directory repo_dir.

Definition submit_output (repo_name tag_name commit_sha : string)
           (repo_dir : option string) (clone : bool) : M unit :=
  let base_submission := base_submission repo_name commit_sha in
  do success <- Db.submit E base_submission;
  run (if negb success
       then do _ <- Db.submit E (preliminary_failure base_submission); ret tt
       else ret tt);
  do submission <-
    try_except
      (do output <- run_evaluation repo_name tag_name commit_sha repo_dir clone;
       lift (success_submission base_submission output))
      (fun e => ret (failed_submission base_submission e));
  do _ <- Db.submit E submission;
  ret tt.

(** *** Closed forms, for stating properties

    The world [submit_output] is in when it enters its [try]: after
    the placeholder write and, when that one is refused, the write of
    the record that says so. *)
Definition after_placeholder (repo_name commit_sha : string) (w : world) : world :=
  let base := base_submission repo_name commit_sha in
  let w1 := Db.after_submit E w base in
  if Db.put_accepted E w base then w1
  else Db.after_submit E w1 (preliminary_failure base).

(** The output mount [run_evaluation] uses. *)
Definition output_directory : string := Str.path_join (cwd E) "output".

(** The world in which [run_evaluation], called in [w], calls
    [get_submission_output], when it gets there. *)
Definition extraction_entry (repo_name commit_sha : string) (repo_dir : option string)
           (clone : bool) (w : world) : world :=
  let w1 := logged repo_name commit_sha w in
  if clone then (os_system_git_clone (resolve_repo_dir repo_name repo_dir) w1).2
  else w1.

(** The record [submit_output] hands to the store last, from the way
    [run_evaluation] ended. *)
Definition final_submission (base : record) (r : outcome value) : record :=
  match r with
  | Ret output =>
      match success_submission base output with
      | Ret submission => submission
      | Raise e => failed_submission base e
      end
  | Raise e => failed_submission base e
  end.

(** The body of the inner loop of [main]. *)
Definition process_tag (repo_name : string) (tag : string * string) : M unit :=
  let '(tag_name, commit_sha) := tag in
  do already <- Db.is_already_submitted repo_name commit_sha;
  if negb already
  then submit_output repo_name tag_name commit_sha None true
  else ret tt.

(** The body of the outer loop of [main]. *)
Definition process_repo (repo_name : string) : M unit :=
  do submission_tags <- check_submission_tags repo_name;
  for_each submission_tags (process_tag repo_name).

(** [main], once the store and Docker clients exist. *)
Definition main_loop (repos : list string) : M unit :=
  for_each repos process_repo.

Definition main : M unit := main_loop REPOS.

(** [n] successive invocations, each starting in the world the one
    before left, whether it returned or raised. *)
Fixpoint polls (repos : list string) (n : nat) (w : world) : world :=
  match n with
  | O => w
  | S n' => polls repos n' (main_loop repos w).2
  end.

End WithEnvironment.
End Poll.

(** ** Concrete worlds and environments used as test inputs *)

Module Examples.
Import Py Value World.

(** An artifact as [evaluate.py] writes it, cut down to one trial. *)
Definition artifact : value :=
  VDict [("class_name", VStr "SimplePolicy");
         ("mean_profit", VFloat (25 # 2));
         ("std_profit", VFloat (11 # 10));
         ("score", VFloat (25 # 2));
         ("trials", VList [VDict [("start_step", VInt 0); ("episode_length", VInt 3)]]);
         ("main_trial_idx", VInt 0)].


Definition listing : response :=
  Response 200 [Tag "v1.0" "aaa111"; Tag "submission-1" "abc123"].

Definition make_environment
           (http : nat -> string -> outcome response) (put : nat -> Z)
           (run_raises : nat -> option exn) (program : nat -> option content)
  : environment :=
  {| cwd := "/srv/backend";
     clock_ms := fun t => (1700000000000 + Z.of_nat t)%Z;
     http_get := http;
     put_item_status := put;
     git_clone := fun _ => true;
     uuid4 := fun t => "uuid-" +:+ pretty t;
     docker_build := fun _ => None;
     docker_run := run_raises;
     docker_logs := fun _ => None;
     docker_stop := fun _ => None;
     docker_remove := fun _ => None;
     docker_rmi := fun _ => None;
     program_output := program |}.

(** Everything outside works and the program writes its artifact. *)
Definition env_ok : environment :=
  make_environment (fun _ _ => Ret listing) (fun _ => 200%Z)
                   (fun _ => None) (fun _ => Some (Json artifact)).


(** The daemon builds images and refuses to start containers. *)
Definition env_run_raises : environment :=
  make_environment (fun _ _ => Ret listing) (fun _ => 200%Z)
                   (fun _ => Some (Exn DockerException "cannot start container"))
                   (fun _ => Some (Json artifact)).

(** The program exits without writing a result file. *)
Definition env_no_artifact : environment :=
  make_environment (fun _ _ => Ret listing) (fun _ => 200%Z)
                   (fun _ => None) (fun _ => None).


(** GitHub answers 401 for the first repository polled. *)
Definition env_first_poll_unauthorized : environment :=
  make_environment (fun t _ => if (t =? 0)%nat then Ret (Response 401 []) else Ret listing)
                   (fun _ => 200%Z) (fun _ => None) (fun _ => Some (Json artifact)).

(** The network is down for the first repository polled. *)
Definition env_first_poll_unreachable : environment :=
  make_environment
    (fun t _ => if (t =? 0)%nat
                then Raise (Exn ConnectionError "Max retries exceeded")
                else Ret listing)
    (fun _ => 200%Z) (fun _ => None) (fun _ => Some (Json artifact)).

(** A fresh host: the output mount exists, nothing else. *)
Definition world0 : world :=
  MkWorld 0 ∅ {[ "/srv/backend/output" := Dir ]} ∅ ∅ [] [] [].

(** The same host once a submission has been cloned. *)
Definition world_cloned : world :=
  set_files world0 (<[ "submissions/trading-bot" := Dir ]> (files world0)).

(** The same host with a [pending] record left by an interrupted run. *)
Definition world_pending : world :=
  set_table world0
    {[ ("MLAI-AUS-Inc/trading-bot", "abc123") :=
         Poll.base_submission "MLAI-AUS-Inc/trading-bot" "abc123" ]}.

(** *** Batteries *)

(** A battery that stores nothing of what it is given, and a power
    and duration of [1e308] each. *)
Definition battery_efficiency_zero : FloatBattery.t :=
  FloatBattery.init (FloatBattery.finite 100) (FloatBattery.finite (inject_Z (10 ^ 308)))
    (FloatBattery.finite 50) (FloatBattery.finite 50) (FloatBattery.finite 0).
Definition float_1e308 : FloatBattery.float :=
  FloatBattery.finite (inject_Z (10 ^ 308)).

Definition battery_default : Battery.t :=
  Battery.init 100 50 50 50 Battery.default_efficiency.

Definition battery_negative_initial_charge : Battery.t :=
  Battery.set_state_of_charge (Battery.init 100 50 50 (-5) Battery.default_efficiency) 10.

Definition battery_negative_charge_rate : Battery.t :=
  Battery.set_state_of_charge (Battery.init 100 (-50) 50 50 Battery.default_efficiency) 1.

Definition battery_negative_discharge_rate : Battery.t :=
  Battery.set_state_of_charge (Battery.init 100 50 (-50) 50 Battery.default_efficiency) 99.

Definition battery_negative_efficiency : Battery.t :=
  Battery.set_state_of_charge (Battery.init 100 50 50 50 (- (9 # 10))) (1 # 2).

(** *** Inputs of [evaluate.py] *)

(** A stand-in for what the repository does not contain: a linear
    congruential generator for [random], the exact mean for [np.mean]
    and the variance, a rational quantity, in place of [np.std]. *)
Definition toy_library : Evaluate.library :=
  {| Evaluate.gen := Z;
     Evaluate.seeded := fun s =>
       if (s <? 0)%Z then Raise (Exn ValueError "Seed must be between 0 and 2**32 - 1")
       else Ret s;
     Evaluate.randint := fun a b g =>
       if (b <? a)%Z then (Raise (Exn ValueError "empty range for randrange()"), g)
       else (Ret (a + g mod (b - a + 1))%Z, (g * 1103515245 + 12345) mod 2147483648)%Z;
     Evaluate.np_mean := BatteryEnv.mean;
     Evaluate.np_std := fun l =>
       BatteryEnv.mean ((fun x => (x - BatteryEnv.mean l) * (x - BatteryEnv.mean l))%Q <$> l) |}.

(** A submission whose constructor draws its bid from [random]:
    [self.quantity = random.randint(1, 50)], and [act] returns it. *)
Definition RandomInitPolicy : Policy.class (Evaluate.gen toy_library) :=
  {| Policy.class_name := "RandomInitPolicy";
     Policy.object := Q;
     Policy.construct := fun _ g =>
       match Evaluate.randint toy_library 1 50 g with
       | (Ret quantity, g) => (Ret (inject_Z quantity), g)
       | (Raise e, g) => (Raise e, g)
       end;
     Policy.act := fun self _ _ g => ((self, self), g) |}.

Definition market_data : list BatteryEnv.row :=
  [BatteryEnv.Row (3 # 10) []; BatteryEnv.Row (5 # 10) [];
   BatteryEnv.Row (2 # 10) []; BatteryEnv.Row (4 # 10) []].

(** Two runs of the same command on the same submission and data. *)
Definition first_run : Evaluate.ambient toy_library :=
  Evaluate.Ambient toy_library 3%Z "20240501_120000".
Definition second_run : Evaluate.ambient toy_library :=
  Evaluate.Ambient toy_library 7%Z "20240501_120500".

End Examples.

(** ** Relating the world before and after a computation *)

Module Frame.
Import Py Value World.

(** Whatever [m] returns or raises, it takes a world [w] to a world [w']
    with [P w w']. *)
Definition relates {A} (P : world -> world -> Prop) (m : M A) : Prop :=
  forall w r w', m w = (r, w') -> P w w'.

(** [m] leaves the observation [f] of the world unchanged. *)
Definition keeps {A B} (f : world -> B) (m : M A) : Prop :=
  relates (fun w w' => f w' = f w) m.

(** What the store and the observers of the backend see. *)
Definition store_view (w : world) :=
  (table w, put_log w, eval_log w, poll_log w).

(** What the Docker daemon holds. *)
Definition docker_view (w : world) := (images w, containers w).

(** Every key recorded in [w] is still recorded in [w']. *)
Definition table_grows (w w' : world) : Prop :=
  forall k, is_Some (table w !! k) -> is_Some (table w' !! k).

(** From [w] to [w'], a key recorded in [w] stays recorded and no
    evaluation of it is started. *)
Definition not_reevaluated (key : string * string) (w w' : world) : Prop :=
  is_Some (table w !! key) ->
  is_Some (table w' !! key) /\
  exists new, eval_log w' = new ++ eval_log w /\ key ∉ new.

End Frame.

(* ===================================================================== *)
(** * Part II: properties                                                 *)
(* ===================================================================== *)

(** ** The battery keeps its state of charge in range *)

Section BatteryFacts.
Import Py.
Local Open Scope Q_scope.

Lemma py_min_spec (a b : Q) :
  (a <= b /\ Py.min a b = a) \/ (b < a /\ Py.min a b = b).
Proof.
  unfold Py.min. destruct (Qle_bool a b) eqn:E.
  - left. split; [by apply Qle_bool_iff | done].
  - right. split; [| done]. apply Qnot_le_lt. intros H.
    apply Qle_bool_iff in H. congruence.
Qed.

Lemma py_max_spec (a b : Q) :
  (b <= a /\ Py.max a b = a) \/ (a < b /\ Py.max a b = b).
Proof.
  unfold Py.max. destruct (Qle_bool b a) eqn:E.
  - left. split; [by apply Qle_bool_iff | done].
  - right. split; [| done]. apply Qnot_le_lt. intros H.
    apply Qle_bool_iff in H. congruence.
Qed.

Lemma py_div_ret (a b : Q) :
  ~ b == 0 -> Py.div a b = Ret (a / b).
Proof.
  intros Hb. unfold Py.div. destruct (Qeq_bool b 0) eqn:E; [| done].
  apply Qeq_bool_iff in E. contradiction.
Qed.

Lemma py_div_raise (a b : Q) :
  b == 0 -> Py.div a b = Raise (Exn ZeroDivisionError "float division by zero").
Proof.
  intros Hb. unfold Py.div. apply Qeq_bool_iff in Hb. by rewrite Hb.
Qed.

Lemma py_div_inv (a b q : Q) :
  Py.div a b = Ret q -> ~ b == 0 /\ q = a / b.
Proof.
  unfold Py.div. destruct (Qeq_bool b 0) eqn:E; [done |].
  intros [= <-]. split; [| done]. intros H. apply Qeq_bool_iff in H. congruence.
Qed.

(** The order handed to the battery when charging is nonnegative. *)
Lemma charge_order_nonneg (p r d eff : Q) :
  0 <= p -> 0 <= r -> 0 <= d -> 0 <= eff ->
  0 <= Py.min p r * (d / 60) * eff.
Proof.
  intros Hp Hr Hd He.
  assert (0 <= Py.min p r) as Hm by (destruct (py_min_spec p r) as [[_ ->]|[_ ->]]; done).
  assert (0 <= d / 60) as Hd'.
  { unfold Qdiv. apply Qmult_le_0_compat; [done | discriminate]. }
  apply Qmult_le_0_compat; [apply Qmult_le_0_compat |]; done.
Qed.

(** The order taken from the battery when discharging is nonnegative. *)
Lemma discharge_order_nonneg (p r d eff : Q) :
  0 <= p -> 0 <= r -> 0 <= d -> 0 <= eff ->
  0 <= Py.min p r * (d / 60) / eff.
Proof.
  intros Hp Hr Hd He.
  assert (0 <= Py.min p r) as Hm by (destruct (py_min_spec p r) as [[_ ->]|[_ ->]]; done).
  assert (0 <= d / 60) as Hd'.
  { unfold Qdiv. apply Qmult_le_0_compat; [done | discriminate]. }
  unfold Qdiv at 1. apply Qmult_le_0_compat.
  - apply Qmult_le_0_compat; done.
  - apply Qinv_le_0_compat. done.
Qed.

Lemma reset_in_range (b : Battery.t) :
  0 <= Battery.initial_charge b -> 0 <= Battery.capacity b ->
  Battery.soc_in_range (Battery.reset b).
Proof.
  intros Hi Hc. unfold Battery.soc_in_range, Battery.reset. simpl.
  destruct (py_min_spec (Battery.initial_charge b) (Battery.capacity b))
    as [[H ->]|[H ->]]; split; try done; lra.
Qed.

Lemma charge_in_range (b : Battery.t) (power duration : Q) :
  0 <= Battery.charge_rate b -> 0 <= Battery.efficiency b ->
  Battery.soc_in_range b -> 0 <= power -> 0 <= duration ->
  Battery.soc_in_range (Battery.charge b power duration).2.
Proof.
  intros Hr He [H0 Hc] Hp Hd.
  pose proof (charge_order_nonneg power (Battery.charge_rate b) duration
                (Battery.efficiency b) Hp Hr Hd He) as Ho.
  unfold Battery.soc_in_range, Battery.charge. simpl.
  set (o := Py.min power (Battery.charge_rate b) * (duration / 60) * Battery.efficiency b) in *.
  destruct (py_min_spec (Battery.state_of_charge b + o) (Battery.capacity b))
    as [[H ->]|[H ->]]; split; lra.
Qed.

Lemma discharge_in_range (b b' : Battery.t) (power duration e : Q) :
  0 <= Battery.discharge_rate b -> 0 <= Battery.efficiency b ->
  Battery.soc_in_range b -> 0 <= power -> 0 <= duration ->
  Battery.discharge b power duration = Ret (e, b') ->
  Battery.soc_in_range b'.
Proof.
  intros Hr He [H0 Hc] Hp Hd. unfold Battery.discharge.
  destruct (Py.div _ _) as [o|] eqn:Ediv; [| done].
  apply py_div_inv in Ediv as [_ ->]. intros [= <- <-].
  pose proof (discharge_order_nonneg power (Battery.discharge_rate b) duration
                (Battery.efficiency b) Hp Hr Hd He) as Ho.
  unfold Battery.soc_in_range. simpl.
  set (o := Py.min power (Battery.discharge_rate b) * (duration / 60) / Battery.efficiency b) in *.
  destruct (py_max_spec (Battery.state_of_charge b - o) 0)
    as [[H ->]|[H ->]]; split; lra.
Qed.

End BatteryFacts.

(** C10, as stated, fails: the range of the state of charge alone does not
    make [reset], [charge] and [discharge] keep it.  [reset] restores a
    negative [initial_charge]; a negative [charge_rate] or [efficiency]
    turns charging into a withdrawal below zero; a negative
    [discharge_rate] turns discharging into a deposit above [capacity]. *)
Lemma battery_soc_range_counterexample :
  (Battery.soc_in_range Examples.battery_negative_initial_charge /\
   ~ Battery.soc_in_range (Battery.reset Examples.battery_negative_initial_charge)) /\
  (Battery.soc_in_range Examples.battery_negative_charge_rate /\
   ~ Battery.soc_in_range (Battery.charge Examples.battery_negative_charge_rate 10 5).2) /\
  (Battery.soc_in_range Examples.battery_negative_efficiency /\
   ~ Battery.soc_in_range (Battery.charge Examples.battery_negative_efficiency 10 5).2) /\
  (Battery.soc_in_range Examples.battery_negative_discharge_rate /\
   exists e b', Battery.discharge Examples.battery_negative_discharge_rate 10 5 = Py.Ret (e, b') /\
                ~ Battery.soc_in_range b').
Proof.
  repeat split; try (by vm_compute).
  - intros [H _]. by vm_compute in H.
  - intros [H _]. by vm_compute in H.
  - intros [H _]. by vm_compute in H.
  - eexists _, _. split; [vm_compute; reflexivity |].
    intros [_ H]. by vm_compute in H.
Qed.

(** C10 (amended): for a battery with nonnegative [initial_charge],
    [charge_rate], [discharge_rate] and [efficiency], whose state of charge
    lies in [0, capacity], [reset], [charge] and [discharge] with
    nonnegative power and duration keep it there.  Charging stores
    [min(soc + order, capacity)], discharging leaves [max(soc - order, 0)].
    [discharge] returns whenever [efficiency] is not zero; when it is
    zero the division raises [ZeroDivisionError], which happens before
    the assignment to [state_of_charge]: no battery comes out of the
    call and the one it was called on is as before.  The arithmetic is
    read exactly, as everywhere in [Battery]. *)
Theorem battery_soc_range_preserved (b : Battery.t) :
  Battery.params_ok b ->
  Battery.soc_in_range b ->
  Battery.soc_in_range (Battery.reset b) /\
  (forall power duration : Q,
      (0 <= power)%Q -> (0 <= duration)%Q ->
      let order := (Py.min power (Battery.charge_rate b) * (duration / 60)
                    * Battery.efficiency b)%Q in
      let b' := (Battery.charge b power duration).2 in
      Battery.soc_in_range b' /\
      Battery.state_of_charge b' =
        Py.min (Battery.state_of_charge b + order) (Battery.capacity b)) /\
  (forall power duration : Q,
      (0 <= power)%Q -> (0 <= duration)%Q ->
      (~ (Battery.efficiency b == 0)%Q ->
       exists e b', Battery.discharge b power duration = Py.Ret (e, b')) /\
      (forall e b', Battery.discharge b power duration = Py.Ret (e, b') ->
         let order := (Py.min power (Battery.discharge_rate b) * (duration / 60)
                       / Battery.efficiency b)%Q in
         Battery.soc_in_range b' /\
         Battery.state_of_charge b' =
           Py.max (Battery.state_of_charge b - order) 0) /\
      ((Battery.efficiency b == 0)%Q ->
       Battery.discharge b power duration =
         Py.Raise (Py.Exn Py.ZeroDivisionError "float division by zero"))).
Proof.
  intros (Hi & Hcr & Hdr & He) Hsoc. split; [| split].
  - apply reset_in_range; [done |]. destruct Hsoc. lra.
  - intros power duration Hp Hd. split; [by apply charge_in_range | done].
  - intros power duration Hp Hd. split; [| split].
    + intros Hne. unfold Battery.discharge. rewrite py_div_ret by done. eauto.
    + intros e b' Hdis. split; [by apply (discharge_in_range b b' power duration e) |].
      unfold Battery.discharge in Hdis.
      destruct (Py.div _ _) as [o|] eqn:Ediv; [| done].
      apply py_div_inv in Ediv as [_ ->]. by injection Hdis as <- <-.
    + intros Hzero. unfold Battery.discharge. by rewrite py_div_raise.
Qed.

Lemma battery_soc_range_preserved_witness :
  Battery.params_ok Examples.battery_default /\
  Battery.soc_in_range Examples.battery_default /\
  Battery.soc_in_range (Battery.reset Examples.battery_default) /\
  Battery.soc_in_range (Battery.charge Examples.battery_default 80 5).2.
Proof.
  assert (Battery.params_ok Examples.battery_default) as Hp by (repeat split; by vm_compute).
  assert (Battery.soc_in_range Examples.battery_default) as Hs by (split; by vm_compute).
  pose proof (battery_soc_range_preserved Examples.battery_default Hp Hs) as (Hr & Hc & _).
  split; [exact Hp |]. split; [exact Hs |]. split; [exact Hr |].
  destruct (Hc 80%Q 5%Q ltac:(by vm_compute) ltac:(by vm_compute)) as [H _]. exact H.
Defined.

(** Outside the exact reading: with [efficiency] 0 and a power and
    duration whose product overflows, [charge] computes [inf * 0.0], a
    nan, which [min] keeps as the state of charge; every parameter is
    finite and not negative and the state of charge was in range.  None
    of the steps depends on how finite results are rounded.  [discharge]
    on the same battery raises, as in the exact reading. *)
Lemma charge_overflow_stores_nan :
  let b := Examples.battery_efficiency_zero in
  FloatBattery.finite_nonneg (FloatBattery.initial_charge b) = true /\
  FloatBattery.finite_nonneg (FloatBattery.charge_rate b) = true /\
  FloatBattery.finite_nonneg (FloatBattery.discharge_rate b) = true /\
  FloatBattery.finite_nonneg (FloatBattery.efficiency b) = true /\
  FloatBattery.finite_nonneg Examples.float_1e308 = true /\
  FloatBattery.soc_in_range b = true /\
  (exists e b',
      FloatBattery.charge b Examples.float_1e308 Examples.float_1e308 = Py.Ret (e, b') /\
      FloatBattery.state_of_charge b' = FloatBattery.nan /\
      FloatBattery.soc_in_range b' = false) /\
  FloatBattery.discharge b Examples.float_1e308 Examples.float_1e308 =
    Py.Raise (Py.Exn Py.ZeroDivisionError "float division by zero").
Proof.
  repeat split; try (vm_compute; reflexivity).
  eexists _, _. repeat split; vm_compute; reflexivity.
Qed.

(** ** Strings *)

Section StringFacts.

Lemma startswith_spec (p s : string) :
  Str.startswith p s = true <-> exists post, s = p +:+ post.
Proof.
  revert s. induction p as [|a p IH]; intros s; simpl.
  - split; [eauto | done].
  - destruct s as [|b s].
    + split; [done | intros [post H]; discriminate H].
    + rewrite andb_true_iff, Ascii.eqb_eq, IH. split.
      * intros [-> [post ->]]. by exists post.
      * intros [post [= -> ->]]. eauto.
Qed.

(** [needle in hay] holds exactly when [needle] occurs in [hay]. *)
Lemma contains_spec (needle hay : string) :
  Str.contains needle hay = true <->
  exists pre post, hay = pre +:+ needle +:+ post.
Proof.
  induction hay as [|c hay IH]; simpl; rewrite orb_true_iff, startswith_spec.
  - split.
    + intros [[post H]|H]; [by exists "", post | done].
    + intros (pre & post & H). left. destruct pre; [by exists post | discriminate H].
  - rewrite IH. split.
    + intros [[post H]|(pre & post & ->)]; [by exists "", post |].
      by exists (String c pre), post.
    + intros (pre & post & H). destruct pre as [|c' pre]; simpl in H.
      * left. by exists post.
      * right. injection H as -> ->. by exists pre, post.
Qed.

End StringFacts.

(** ** Tag filtering *)

Section TagFacts.
Import Py Value World.

Lemma collect_submission_tags_filter (tags : list tag) :
  Poll.collect_submission_tags tags = List.map Poll.tag_pair (List.filter Poll.is_submission_tag tags).
Proof.
  unfold Poll.collect_submission_tags.
  enough (forall acc,
    foldl (fun submission_tags tag =>
             if Str.contains "submission" (tag_name tag)
             then submission_tags ++ [(tag_name tag, tag_commit_sha tag)]
             else submission_tags) acc tags
    = acc ++ List.map Poll.tag_pair (List.filter Poll.is_submission_tag tags)) as H by apply (H []).
  induction tags as [|t tags IH]; intros acc; simpl.
  - by rewrite app_nil_r.
  - rewrite IH. unfold Poll.is_submission_tag at 2.
    destruct (Str.contains "submission" (tag_name t)); [| done].
    by rewrite <- app_assoc.
Qed.

Lemma in_collect_submission_tags (tags : list tag) (name sha : string) :
  In (name, sha) (Poll.collect_submission_tags tags) <->
  In (Tag name sha) tags /\ Str.contains "submission" name = true.
Proof.
  rewrite collect_submission_tags_filter, in_map_iff. split.
  - intros ([n s] & [= <- <-] & Hin). by apply filter_In in Hin.
  - intros [Hin Hc]. exists (Tag name sha). split; [done |]. by apply filter_In.
Qed.

(** C6: when the tag listing is returned (status 200),
    [check_submission_tags] returns the (name, sha) pairs of exactly the
    listed tags whose name contains "submission", in listing order; a
    tag named "v1.0" is left out and a tag named "submission-1" is kept. *)
Theorem check_submission_tags_filters
        (E : environment) (w : world) (repo_name : string) (resp : response) :
  http_get E (tick w) (Poll.GITHUB_API +:+ "/repos/" +:+ repo_name +:+ "/tags") = Ret resp ->
  status_code resp = 200%Z ->
  exists tags w',
    Poll.check_submission_tags E repo_name w = (Ret tags, w') /\
    tags = List.map Poll.tag_pair (List.filter Poll.is_submission_tag (json resp)) /\
    (forall name sha,
        In (name, sha) tags <->
        In (Tag name sha) (json resp) /\
        exists pre post, name = pre +:+ "submission" +:+ post) /\
    (forall sha, ~ In ("v1.0", sha) tags) /\
    (forall sha, In (Tag "submission-1" sha) (json resp) -> In ("submission-1", sha) tags).
Proof.
  intros Hget Hstatus.
  exists (Poll.collect_submission_tags (json resp)).
  eexists. split; [| split; [| split; [| split]]].
  - unfold Poll.check_submission_tags, bind, modify, outside_call, lift, ret. simpl.
    rewrite Hget. unfold Poll.submission_tags_of_response. rewrite Hstatus. reflexivity.
  - apply collect_submission_tags_filter.
  - intros name sha. rewrite in_collect_submission_tags, contains_spec. done.
  - intros sha [_ H]%in_collect_submission_tags. by vm_compute in H.
  - intros sha H. apply in_collect_submission_tags. split; [done | by vm_compute].
Qed.

End TagFacts.

Lemma check_submission_tags_filters_witness :
  exists w',
    Poll.check_submission_tags Examples.env_ok "MLAI-AUS-Inc/trading-bot" Examples.world0
    = (Py.Ret [("submission-1", "abc123")], w').
Proof.
  destruct (check_submission_tags_filters Examples.env_ok Examples.world0
              "MLAI-AUS-Inc/trading-bot" Examples.listing eq_refl eq_refl)
    as (tags & w' & Hrun & -> & _).
  exists w'. exact Hrun.
Defined.

(** ** Reasoning about computations on the world *)

Section RelatesFacts.
Import Py Value World Frame.
Context (P : world -> world -> Prop).
Context (P_refl : forall w, P w w).
Context (P_trans : forall w1 w2 w3, P w1 w2 -> P w2 w3 -> P w1 w3).

Lemma relates_ret {A} (a : A) : relates P (ret a).
Proof using P_refl. intros w r w' [= <- <-]. apply P_refl. Qed.

Lemma relates_raise {A} (e : exn) : relates P (@raise A e).
Proof using P_refl. intros w r w' [= <- <-]. apply P_refl. Qed.

Lemma relates_lift {A} (o : outcome A) : relates P (lift o).
Proof using P_refl. intros w r w' [= <- <-]. apply P_refl. Qed.

Lemma relates_get {A} (f : world -> A) : relates P (get f).
Proof using P_refl. intros w r w' [= <- <-]. apply P_refl. Qed.

Lemma relates_modify (f : world -> world) :
  (forall w, P w (f w)) -> relates P (modify f).
Proof. intros H w r w' [= <- <-]. apply H. Qed.

Lemma relates_outside_call :
  (forall w, P w (next_tick w)) -> relates P outside_call.
Proof. intros H w r w' [= <- <-]. apply H. Qed.

Lemma relates_bind {A B} (m : M A) (k : A -> M B) :
  relates P m -> (forall a, relates P (k a)) -> relates P (bind m k).
Proof using P_trans.
  intros Hm Hk w r w'. unfold bind.
  destruct (m w) as [[a|e] w1] eqn:Em.
  - intros Hka. eapply P_trans; [by eapply Hm | by eapply Hk].
  - intros [= <- <-]. by eapply Hm.
Qed.

Lemma relates_try_except {A} (body : M A) (handler : exn -> M A) :
  relates P body -> (forall e, relates P (handler e)) ->
  relates P (try_except body handler).
Proof using P_trans.
  intros Hb Hh w r w'. unfold try_except.
  destruct (body w) as [[a|e] w1] eqn:Eb.
  - intros [= <- <-]. by eapply Hb.
  - intros Hhe. eapply P_trans; [by eapply Hb | by eapply Hh].
Qed.

Lemma relates_try_finally {A} (body : M A) (final : M unit) :
  relates P body -> relates P final -> relates P (try_finally body final).
Proof using P_trans.
  intros Hb Hf w r w'. unfold try_finally.
  destruct (body w) as [rb w1] eqn:Eb.
  destruct (final w1) as [[[]|e] w2] eqn:Ef; intros [= <- <-];
    (eapply P_trans; [by eapply Hb | by eapply Hf]).
Qed.

Lemma relates_for_each {A} (l : list A) (body : A -> M unit) :
  (forall x, relates P (body x)) -> relates P (for_each l body).
Proof using P_refl P_trans.
  intros Hb. induction l as [|x l IH]; simpl.
  - apply relates_ret.
  - apply relates_bind; [apply Hb | intros _; apply IH].
Qed.

End RelatesFacts.

Section BindFacts.
Import Py World.

Lemma bind_returns {A B} (m : M A) (k : A -> M B) (w w' : world) (a : A) :
  m w = (Ret a, w') -> bind m k w = k a w'.
Proof. intros H. unfold bind. by rewrite H. Qed.

Lemma bind_raises {A B} (m : M A) (k : A -> M B) (w w' : world) (e : exn) :
  m w = (Raise e, w') -> bind m k w = (Raise e, w').
Proof. intros H. unfold bind. by rewrite H. Qed.

End BindFacts.

Section KeepsFacts.
Import Py Value World Frame.
Context {B : Type} (f : world -> B).

Lemma keeps_ret {A} (a : A) : keeps f (ret a).
Proof. by apply relates_ret. Qed.

Lemma keeps_raise {A} (e : exn) : keeps f (@raise A e).
Proof. by apply relates_raise. Qed.

Lemma keeps_lift {A} (o : outcome A) : keeps f (lift o).
Proof. by apply relates_lift. Qed.

Lemma keeps_get {A} (g : world -> A) : keeps f (get g).
Proof. by apply relates_get. Qed.

Lemma keeps_modify (g : world -> world) :
  (forall w, f (g w) = f w) -> keeps f (modify g).
Proof. intros H. by apply relates_modify. Qed.

Lemma keeps_outside_call :
  (forall w, f (next_tick w) = f w) -> keeps f outside_call.
Proof. intros H. by apply relates_outside_call. Qed.

Lemma keeps_bind {A C} (m : M A) (k : A -> M C) :
  keeps f m -> (forall a, keeps f (k a)) -> keeps f (bind m k).
Proof. apply relates_bind. intros w1 w2 w3 H1 H2. by rewrite H2. Qed.

Lemma keeps_try_except {A} (body : M A) (handler : exn -> M A) :
  keeps f body -> (forall e, keeps f (handler e)) -> keeps f (try_except body handler).
Proof. apply relates_try_except. intros w1 w2 w3 H1 H2. by rewrite H2. Qed.

Lemma keeps_try_finally {A} (body : M A) (final : M unit) :
  keeps f body -> keeps f final -> keeps f (try_finally body final).
Proof. apply relates_try_finally. intros w1 w2 w3 H1 H2. by rewrite H2. Qed.

Lemma keeps_for_each {A} (l : list A) (body : A -> M unit) :
  (forall x, keeps f (body x)) -> keeps f (for_each l body).
Proof.
  apply relates_for_each; [done |]. intros w1 w2 w3 H1 H2. by rewrite H2.
Qed.

End KeepsFacts.

(** One step of a proof that a computation keeps an observation. *)
Ltac keeps_step :=
  lazymatch goal with
  | |- Frame.keeps _ (World.bind _ _) => apply keeps_bind; [| intros ?]
  | |- Frame.keeps _ (World.ret _) => apply keeps_ret
  | |- Frame.keeps _ (World.raise _) => apply keeps_raise
  | |- Frame.keeps _ (World.lift _) => apply keeps_lift
  | |- Frame.keeps _ (World.get _) => apply keeps_get
  | |- Frame.keeps _ (World.modify _) =>
      apply keeps_modify; intros ?; repeat case_match; reflexivity
  | |- Frame.keeps _ World.outside_call =>
      apply keeps_outside_call; intros ?; reflexivity
  | |- Frame.keeps _ (World.try_except _ _) => apply keeps_try_except; [| intros ?]
  | |- Frame.keeps _ (World.try_finally _ _) => apply keeps_try_finally
  | |- Frame.keeps _ (if ?b then _ else _) => destruct b
  | |- Frame.keeps _ (match ?x with _ => _ end) => destruct x
  end.

(** ** The runner and the extractor leave the store alone *)

Section DockFrame.
Import Py Value World Frame.
Context (E : environment).

Lemma save_docker_submission_keeps_store (out sub : string) :
  keeps store_view (Dock.save_docker_submission E out sub).
Proof.
  unfold Dock.save_docker_submission, Dock.path_exists, Dock.new_uuid,
    Dock.images_build, Dock.containers_run, Dock.container_logs,
    Dock.container_stop, Dock.container_remove, Dock.images_remove.
  repeat keeps_step.
Qed.

Lemma get_submission_output_keeps_store (out sub : string) :
  keeps store_view (Dock.get_submission_output E out sub).
Proof.
  unfold Dock.get_submission_output.
  keeps_step; [apply save_docker_submission_keeps_store |].
  unfold Dock.open_read, Dock.os_remove. repeat keeps_step.
Qed.

End DockFrame.

(** ** The runner and the result extractor *)

Section DockFacts.
Import Py Value World Frame.
Context (E : environment).

Lemma path_exists_true (path : string) (w : world) :
  is_Some (files w !! path) -> Dock.path_exists path w = (Ret true, w).
Proof.
  intros H. unfold Dock.path_exists, get. by rewrite bool_decide_eq_true_2.
Qed.

(** When [save_docker_submission] returns, the image it built and the
    container it started are gone. *)
Lemma save_docker_submission_normal_exit (out sub : string) (w w' : world) :
  Dock.save_docker_submission E out sub w = (Ret tt, w') ->
  images w' = ({[uuid4 E (tick w)]} ∪ images w) ∖ {[uuid4 E (tick w)]} /\
  containers w' !! (S (S (tick w))) = None.
Proof.
  unfold Dock.save_docker_submission, Dock.path_exists, Dock.new_uuid,
    Dock.images_build, Dock.containers_run, Dock.container_logs,
    Dock.container_stop, Dock.container_remove, Dock.images_remove,
    bind, get, modify, outside_call, ret, raise.
  simpl. intros H.
  repeat (case_match; simpl in *; simplify_eq; try done).
  all: split; [done | apply lookup_delete_eq].
Qed.

(** C2, at the failing path: with both directories present, when the
    image builds and [client.containers.run] raises, that exception
    leaves [save_docker_submission] and the image tagged with this
    call's uuid is still held by the daemon. *)
Theorem save_docker_submission_leaves_image (out sub : string) (w : world) (e : exn) :
  is_Some (files w !! out) ->
  is_Some (files w !! sub) ->
  docker_build E (S (tick w)) = None ->
  docker_run E (S (S (tick w))) = Some e ->
  exists w',
    Dock.save_docker_submission E out sub w = (Raise e, w') /\
    uuid4 E (tick w) ∈ images w'.
Proof.
  intros Hout Hsub Hbuild Hrun. eexists.
  unfold Dock.save_docker_submission, Dock.path_exists, Dock.new_uuid,
    Dock.images_build, Dock.containers_run, bind, get, outside_call, modify,
    raise, ret.
  simpl. rewrite bool_decide_eq_true_2 by done. simpl.
  rewrite bool_decide_eq_true_2 by done. simpl.
  rewrite Hbuild. simpl. rewrite Hrun. split; [reflexivity |].
  simpl. set_solver.
Qed.

(** When [get_submission_output] returns an artifact, the container run
    had returned, the result file held that artifact, and the file is
    gone from the world handed back. *)
Lemma get_submission_output_returns_inv
      (out sub : string) (w w' : world) (data : value) :
  Dock.get_submission_output E out sub w = (Ret data, w') ->
  exists w1,
    Dock.save_docker_submission E out sub w = (Ret tt, w1) /\
    files w1 !! Str.path_join out "output.json" = Some (File (Json data)) /\
    files w' = delete (Str.path_join out "output.json") (files w1).
Proof.
  unfold Dock.get_submission_output, bind.
  destruct (Dock.save_docker_submission E out sub w) as [[[]|e] w1] eqn:Hsave; [| done].
  unfold Dock.open_read, Dock.os_remove, bind, get, lift, modify, raise, ret. simpl.
  destruct (files w1 !! Str.path_join out "output.json") as [[|[v|txt]]|] eqn:Hfile;
    simpl; try done.
  rewrite Hfile. simpl.
  intros [= <- <-]. by exists w1.
Qed.

(** C7: when the container run returns and the result file is read and
    parsed, [get_submission_output] removes the file from the output
    mount and returns the parsed artifact: in the world it hands back
    the file is gone, so a later evaluation cannot read it.  It returns
    an artifact in no other case. *)
Theorem get_submission_output_removes_file
        (out sub : string) (w w1 : world) (data : value) :
  Dock.save_docker_submission E out sub w = (Ret tt, w1) ->
  files w1 !! Str.path_join out "output.json" = Some (File (Json data)) ->
  let w' := set_files w1 (delete (Str.path_join out "output.json") (files w1)) in
  Dock.get_submission_output E out sub w = (Ret data, w') /\
  files w' !! Str.path_join out "output.json" = None /\
  (forall path, path <> Str.path_join out "output.json" ->
                files w' !! path = files w1 !! path) /\
  (forall data2 w2,
      Dock.get_submission_output E out sub w = (Ret data2, w2) ->
      data2 = data /\ files w2 !! Str.path_join out "output.json" = None).
Proof.
  intros Hsave Hfile w'.
  assert (Dock.get_submission_output E out sub w = (Ret data, w')) as Hget.
  { unfold Dock.get_submission_output. rewrite (bind_returns _ _ _ _ _ Hsave).
    unfold Dock.open_read, Dock.os_remove, bind, get, lift, modify, raise, ret. simpl.
    rewrite Hfile. simpl. by rewrite Hfile. }
  split; [done |]. split; [apply lookup_delete_eq |]. split.
  - intros path Hne. simpl. by rewrite lookup_delete_ne.
  - intros data2 w2 Hget2. rewrite Hget in Hget2. injection Hget2 as <- <-.
    split; [done | apply lookup_delete_eq].
Qed.

(** Without a result file after the container run, extraction raises
    [FileNotFoundError]. *)
Lemma get_submission_output_missing_file (out sub : string) (w w1 : world) :
  Dock.save_docker_submission E out sub w = (Ret tt, w1) ->
  files w1 !! Str.path_join out "output.json" = None ->
  exists msg,
    Dock.get_submission_output E out sub w = (Raise (Exn FileNotFoundError msg), w1).
Proof.
  intros Hsave Hfile. unfold Dock.get_submission_output, bind. rewrite Hsave.
  unfold Dock.open_read, bind, get, raise. simpl. rewrite Hfile. eauto.
Qed.

End DockFacts.

Lemma save_docker_submission_leaves_image_witness :
  exists w',
    Dock.save_docker_submission Examples.env_run_raises
      "/srv/backend/output" "submissions/trading-bot" Examples.world_cloned
    = (Py.Raise (Py.Exn Py.DockerException "cannot start container"), w') /\
    "uuid-0" ∈ World.images w'.
Proof.
  apply (save_docker_submission_leaves_image Examples.env_run_raises
           "/srv/backend/output" "submissions/trading-bot" Examples.world_cloned).
  - exists World.Dir. vm_compute. reflexivity.
  - exists World.Dir. vm_compute. reflexivity.
  - reflexivity.
  - reflexivity.
Defined.

Lemma get_submission_output_removes_file_witness :
  exists w',
    Dock.get_submission_output Examples.env_ok
      "/srv/backend/output" "submissions/trading-bot" Examples.world_cloned
    = (Py.Ret Examples.artifact, w') /\
    World.files w' !! "/srv/backend/output/output.json" = None.
Proof.
  edestruct (get_submission_output_removes_file Examples.env_ok
               "/srv/backend/output" "submissions/trading-bot" Examples.world_cloned)
    as (Hget & Hgone & _).
  - vm_compute. reflexivity.
  - vm_compute. reflexivity.
  - eexists. split; [exact Hget | exact Hgone].
Defined.

(** ** The store client *)

Section DbFacts.
Import Py Value World Frame.
Context (E : environment).

Lemma convert_is_string (v : value) (s : string) :
  DbConvert.convert_floats_to_decimal v = VStr s <-> v = VStr s.
Proof. destruct v; simpl; split; congruence. Qed.

(** Conversion and time-stamping leave a string field as it is. *)
Lemma stored_item_string_field (w : world) (r : record) (k s : string) :
  k <> "submitted_at" ->
  Db.stored_item E w r !! k = Some (VStr s) <-> r !! k = Some (VStr s).
Proof.
  intros Hk. unfold Db.stored_item, DbConvert.convert_record.
  rewrite lookup_insert_ne by done. rewrite lookup_fmap.
  destruct (r !! k) as [v|]; simpl; [| done].
  split; intros [= H]; f_equal; by apply convert_is_string.
Qed.

Lemma stored_item_lookup (w : world) (r : record) (k : string) :
  k <> "submitted_at" ->
  Db.stored_item E w r !! k = DbConvert.convert_floats_to_decimal <$> r !! k.
Proof.
  intros Hk. unfold Db.stored_item, DbConvert.convert_record.
  rewrite lookup_insert_ne by done. by rewrite lookup_fmap.
Qed.

Lemma status_of_stored_item (w : world) (r : record) :
  status_of (Db.stored_item E w r) = status_of r.
Proof.
  unfold status_of. rewrite stored_item_lookup by done.
  destruct (r !! "status") as [[]|]; reflexivity.
Qed.

Lemma key_of_stored_item (w : world) (r : record) :
  Db.key_of (Db.stored_item E w r) = Db.key_of r.
Proof.
  unfold Db.key_of. rewrite !stored_item_lookup by done.
  destruct (r !! "team") as [[]|]; simpl; try reflexivity.
  destruct (r !! "commit_hash") as [[]|]; reflexivity.
Qed.

(** [submit] returns, with the closed form above, on a record that has
    both key fields. *)
Lemma submit_returns (r : record) (w : world) :
  is_Some (r !! "team") -> is_Some (r !! "commit_hash") ->
  Db.submit E r w = (Ret (Db.put_accepted E w r), Db.after_submit E w r).
Proof.
  intros Ht Hc. unfold Db.submit.
  rewrite !bool_decide_eq_true_2 by done. simpl.
  unfold Db.put_item, Db.put_accepted, Db.after_submit, bind, get, outside_call,
    modify, ret. simpl.
  fold (Db.stored_item E w r).
  destruct (Db.key_of (Db.stored_item E w r)) as [k|]; simpl; [| done].
  destruct (put_item_status E (tick w) =? 200)%Z eqn:Hs; simpl; by rewrite ?Hs.
Qed.

Lemma after_submit_tick (w : world) (r : record) :
  tick (Db.after_submit E w r) = S (tick w).
Proof. unfold Db.after_submit. repeat case_match; reflexivity. Qed.

Lemma after_submit_put_log (w : world) (r : record) :
  put_log (Db.after_submit E w r) = Db.stored_item E w r :: put_log w.
Proof. unfold Db.after_submit. repeat case_match; reflexivity. Qed.

Lemma after_submit_eval_log (w : world) (r : record) :
  eval_log (Db.after_submit E w r) = eval_log w.
Proof. unfold Db.after_submit. repeat case_match; reflexivity. Qed.

Lemma after_submit_poll_log (w : world) (r : record) :
  poll_log (Db.after_submit E w r) = poll_log w.
Proof. unfold Db.after_submit. repeat case_match; reflexivity. Qed.

Lemma after_submit_files (w : world) (r : record) :
  files (Db.after_submit E w r) = files w.
Proof. unfold Db.after_submit. repeat case_match; reflexivity. Qed.

Lemma after_submit_docker (w : world) (r : record) :
  docker_view (Db.after_submit E w r) = docker_view w.
Proof. unfold Db.after_submit. repeat case_match; reflexivity. Qed.

(** A write never removes a key from the table. *)
Lemma after_submit_table_grows (w : world) (r : record) :
  table_grows w (Db.after_submit E w r).
Proof.
  intros k Hk. unfold Db.after_submit. repeat case_match; simpl; try done.
  rewrite lookup_insert. case_decide; [by eexists | done].
Qed.


(** A refused write leaves the table as it was. *)
Lemma after_submit_refused (w : world) (r : record) :
  Db.put_accepted E w r = false ->
  table (Db.after_submit E w r) = table w.
Proof.
  unfold Db.put_accepted, Db.after_submit.
  destruct (Db.key_of _); [| done]. by intros ->.
Qed.

End DbFacts.

(** ** The records [submit_output] builds *)

Section RecordFacts.
Import Py Value World Frame.

Ltac lookup_inserts :=
  repeat first [ rewrite lookup_insert_eq | rewrite lookup_insert_ne by done
               | rewrite lookup_delete_ne by done ].

Lemma base_submission_team (repo sha : string) :
  Poll.base_submission repo sha !! "team" = Some (VStr repo).
Proof. unfold Poll.base_submission. by lookup_inserts. Qed.

Lemma base_submission_commit_hash (repo sha : string) :
  Poll.base_submission repo sha !! "commit_hash" = Some (VStr sha).
Proof. unfold Poll.base_submission. by lookup_inserts. Qed.


Lemma base_submission_key (repo sha : string) :
  Db.key_of (Poll.base_submission repo sha) = Some (repo, sha).
Proof.
  unfold Db.key_of. by rewrite base_submission_team, base_submission_commit_hash.
Qed.







Lemma failed_submission_status (base : record) (e : exn) :
  status_of (Poll.failed_submission base e) = Some "failed".
Proof. unfold status_of, Poll.failed_submission. by lookup_inserts. Qed.

Lemma failed_submission_error (base : record) (e : exn) :
  Poll.failed_submission base e !! "error" = Some (VStr (str e)) /\
  Poll.failed_submission base e !! "error_traceback" = Some (VStr (format_exc e)).
Proof. unfold Poll.failed_submission. split; by lookup_inserts. Qed.

Lemma failed_submission_key (base : record) (e : exn) :
  Db.key_of (Poll.failed_submission base e) = Db.key_of base.
Proof. unfold Db.key_of, Poll.failed_submission. by lookup_inserts. Qed.

(** After [for k, v in items: submission[k] = v], a field is the one of
    the items when they have it and the old one otherwise. *)
Lemma lookup_update_items (d : list (string * value)) (s : record) (k : string) :
  foldl (fun (s : record) kv => <[kv.1 := kv.2]> s) s d !! k =
  match assoc_get d k with
  | Some v => Some v
  | None => s !! k
  end.
Proof.
  revert s. induction d as [|[k' v] d IH]; intros s; simpl; [done |].
  rewrite IH. destruct (assoc_get d k); [done |].
  destruct (String.eqb_spec k' k) as [->|Hne].
  - by rewrite lookup_insert_eq.
  - by rewrite lookup_insert_ne.
Qed.

Lemma update_items_is_Some (d : list (string * value)) (s : record) (k : string) :
  is_Some (s !! k) ->
  is_Some (foldl (fun (s : record) kv => <[kv.1 := kv.2]> s) s d !! k).
Proof. intros H. rewrite lookup_update_items. by destruct (assoc_get d k). Qed.

(** What a record built by the [try] body of [submit_output] looks like. *)
Lemma success_submission_inv (base : record) (output : value) (s : record) :
  Poll.success_submission base output = Ret s ->
  exists d,
    output = VDict d /\
    status_of s = Some "success" /\
    (forall k, k <> "status" -> k <> "trials" -> k <> "main_trial" ->
               s !! k = match assoc_get d k with Some v => Some v | None => base !! k end).
Proof.
  unfold Poll.success_submission, update_from_items.
  destruct output as [| | | | | |l|d]; try done.
  destruct (record_getitem _ "trials") as [trials|]; [| done].
  destruct (record_getitem _ "main_trial_idx") as [idx|]; [| done].
  destruct (getitem trials idx) as [main|]; [| done].
  intros [= <-]. exists d. split; [done |]. split.
  - unfold status_of. by rewrite lookup_insert_eq.
  - intros k H1 H2 H3. lookup_inserts. apply lookup_update_items.
Qed.


Lemma final_submission_has_keys (repo sha : string) (r : outcome value) :
  is_Some (Poll.final_submission (Poll.base_submission repo sha) r !! "team") /\
  is_Some (Poll.final_submission (Poll.base_submission repo sha) r !! "commit_hash").
Proof.
  assert (forall e,
    is_Some (Poll.failed_submission (Poll.base_submission repo sha) e !! "team") /\
    is_Some (Poll.failed_submission (Poll.base_submission repo sha) e !! "commit_hash"))
    as Hfailed.
  { intros e. unfold Poll.failed_submission. lookup_inserts.
    rewrite base_submission_team, base_submission_commit_hash. by split. }
  unfold Poll.final_submission. destruct r as [output|e]; [| apply Hfailed].
  destruct (Poll.success_submission _ output) as [s|e] eqn:Hs; [| apply Hfailed].
  destruct (success_submission_inv _ _ _ Hs) as (d & _ & _ & Hk).
  rewrite !Hk by done.
  rewrite base_submission_team, base_submission_commit_hash.
  split; by case_match.
Qed.

(** The final record carries the key of the submission when evaluation
    failed, and when the artifact has no [team] and no [commit_hash]
    of its own. *)
Lemma final_submission_key (repo sha : string) (r : outcome value) :
  (forall d, r = Ret (VDict d) ->
             assoc_get d "team" = None /\ assoc_get d "commit_hash" = None) ->
  Db.key_of (Poll.final_submission (Poll.base_submission repo sha) r) = Some (repo, sha).
Proof.
  intros Hd. unfold Poll.final_submission. destruct r as [output|e].
  - destruct (Poll.success_submission _ output) as [s|e] eqn:Hs.
    + destruct (success_submission_inv _ _ _ Hs) as (d & -> & _ & Hk).
      destruct (Hd d eq_refl) as [Ht Hc].
      unfold Db.key_of. rewrite !Hk by done. rewrite Ht, Hc.
      by rewrite base_submission_team, base_submission_commit_hash.
    + by rewrite failed_submission_key, base_submission_key.
  - by rewrite failed_submission_key, base_submission_key.
Qed.

End RecordFacts.

(** ** [run_evaluation] and [submit_output] *)

Section PollFacts.
Import Py Value World Frame.
Context (E : environment).

Local Abbreviation output_directory := (Poll.output_directory E).
Local Abbreviation logged := Poll.logged.

Lemma os_system_git_clone_returns (dir : string) (w : world) :
  (Poll.os_system_git_clone E dir w).1 = Ret tt.
Proof.
  unfold Poll.os_system_git_clone, bind, outside_call, modify, ret. simpl.
  by destruct (git_clone E (tick w)).
Qed.

Lemma os_system_git_clone_keeps_store (dir : string) :
  keeps store_view (Poll.os_system_git_clone E dir).
Proof. unfold Poll.os_system_git_clone. repeat keeps_step. Qed.

(** Without [clone], [run_evaluation] is the extractor run after the
    call was logged. *)
Lemma run_evaluation_no_clone (repo tag sha : string) (dir : option string) (w : world) :
  Poll.run_evaluation E repo tag sha dir false w =
  Dock.get_submission_output E output_directory (Poll.resolve_repo_dir repo dir)
    (Poll.extraction_entry E repo sha dir false w).
Proof. reflexivity. Qed.

(** With [clone], an existing target directory is refused. *)
Lemma run_evaluation_clone_exists (repo tag sha : string) (dir : option string) (w : world) :
  is_Some (files w !! Poll.resolve_repo_dir repo dir) ->
  exists msg,
    Poll.run_evaluation E repo tag sha dir true w =
    (Raise (Exn ValueError msg), logged repo sha w).
Proof.
  intros H. eexists. unfold Poll.run_evaluation, Dock.path_exists, bind, modify, get, raise.
  simpl. rewrite bool_decide_eq_true_2 by done. reflexivity.
Qed.

(** With [clone] and no such directory, it is the extractor run after
    the clone, followed by the removal of the clone. *)
Lemma run_evaluation_clone_fresh (repo tag sha : string) (dir : option string) (w : world) :
  files w !! Poll.resolve_repo_dir repo dir = None ->
  Poll.run_evaluation E repo tag sha dir true w =
  let rw := Dock.get_submission_output E output_directory (Poll.resolve_repo_dir repo dir)
              (Poll.extraction_entry E repo sha dir true w) in
  (rw.1, set_files rw.2 (delete (Poll.resolve_repo_dir repo dir) (files rw.2))).
Proof.
  intros H. unfold Poll.run_evaluation, Poll.extraction_entry, Dock.path_exists,
    bind, modify, get, raise, try_finally, Poll.os_system_rm_rf.
  simpl. rewrite bool_decide_eq_false_2 by (rewrite H; by intros [? ?]). simpl.
  pose proof (os_system_git_clone_returns (Poll.resolve_repo_dir repo dir)
                (set_eval_log w ((repo, sha) :: eval_log w))) as Hc.
  destruct (Poll.os_system_git_clone E _ _) as [rc wc]. simpl in Hc. subst rc. simpl.
  fold (Poll.output_directory E).
  by destruct (Dock.get_submission_output E output_directory _ wc) as [r wd].
Qed.

(** When the extractor raises where [run_evaluation] calls it,
    [run_evaluation] raises. *)
Lemma run_evaluation_raises (repo tag sha : string) (dir : option string)
      (clone : bool) (w wc : world) (e : exn) :
  Dock.get_submission_output E output_directory (Poll.resolve_repo_dir repo dir)
    (Poll.extraction_entry E repo sha dir clone w) = (Raise e, wc) ->
  exists e', (Poll.run_evaluation E repo tag sha dir clone w).1 = Raise e'.
Proof.
  intros Hget. destruct clone.
  - destruct (files w !! Poll.resolve_repo_dir repo dir) as [n|] eqn:Hdir.
    + destruct (run_evaluation_clone_exists repo tag sha dir w) as [msg ->]; [by eexists |].
      by eexists.
    + rewrite run_evaluation_clone_fresh by done. rewrite Hget. by eexists.
  - rewrite run_evaluation_no_clone, Hget. by eexists.
Qed.

(** When [run_evaluation] returns an artifact, the extractor returned
    it where [run_evaluation] calls it. *)
Lemma run_evaluation_returns (repo tag sha : string) (dir : option string)
      (clone : bool) (w : world) (output : value) :
  (Poll.run_evaluation E repo tag sha dir clone w).1 = Ret output ->
  exists wc,
    Dock.get_submission_output E output_directory (Poll.resolve_repo_dir repo dir)
      (Poll.extraction_entry E repo sha dir clone w) = (Ret output, wc).
Proof.
  destruct clone.
  - destruct (files w !! Poll.resolve_repo_dir repo dir) as [n|] eqn:Hdir.
    + destruct (run_evaluation_clone_exists repo tag sha dir w) as [msg ->]; [by eexists |].
      done.
    + rewrite run_evaluation_clone_fresh by done. simpl.
      destruct (Dock.get_submission_output _ _ _ _) as [r wd]. simpl.
      intros ->. by eexists.
  - rewrite run_evaluation_no_clone.
    destruct (Dock.get_submission_output _ _ _ _) as [r wd]. simpl.
    intros ->. by eexists.
Qed.

(** [run_evaluation] logs its call and leaves the store alone. *)
Lemma run_evaluation_store (repo tag sha : string) (dir : option string)
      (clone : bool) (w : world) :
  store_view (Poll.run_evaluation E repo tag sha dir clone w).2 =
  store_view (logged repo sha w).
Proof.
  destruct clone.
  - destruct (files w !! Poll.resolve_repo_dir repo dir) as [n|] eqn:Hdir.
    + destruct (run_evaluation_clone_exists repo tag sha dir w) as [msg ->]; [by eexists |].
      done.
    + rewrite run_evaluation_clone_fresh by done. simpl.
      destruct (Dock.get_submission_output _ _ _ _) as [r wd] eqn:Hget. simpl.
      apply get_submission_output_keeps_store in Hget.
      unfold Poll.extraction_entry in Hget.
      destruct (Poll.os_system_git_clone E _ _) as [rc wc] eqn:Hclone.
      apply os_system_git_clone_keeps_store in Hclone. simpl in Hget.
      unfold store_view in *. simpl in *. congruence.
  - rewrite run_evaluation_no_clone.
    destruct (Dock.get_submission_output _ _ _ _) as [r wd] eqn:Hget.
    by apply get_submission_output_keeps_store in Hget.
Qed.

Lemma preliminary_failure_has_keys (repo sha : string) :
  is_Some (Poll.preliminary_failure (Poll.base_submission repo sha) !! "team") /\
  is_Some (Poll.preliminary_failure (Poll.base_submission repo sha) !! "commit_hash").
Proof.
  unfold Poll.preliminary_failure.
  rewrite !lookup_insert_ne by done.
  by rewrite base_submission_team, base_submission_commit_hash.
Qed.

(** [submit_output] in closed form: it always returns, having written
    the placeholder, run the evaluation once and written the final
    record. *)
Lemma submit_output_eq (repo tag sha : string) (dir : option string)
      (clone : bool) (w : world) :
  let base := Poll.base_submission repo sha in
  let rw := Poll.run_evaluation E repo tag sha dir clone
              (Poll.after_placeholder E repo sha w) in
  Poll.submit_output E repo tag sha dir clone w =
  (Ret tt, Db.after_submit E rw.2 (Poll.final_submission base rw.1)).
Proof.
  intros base rw. unfold Poll.submit_output. fold base.
  assert (is_Some (base !! "team") /\ is_Some (base !! "commit_hash")) as [Hbt Hbc].
  { unfold base. by rewrite base_submission_team, base_submission_commit_hash. }
  rewrite (bind_returns _ _ _ _ _ (submit_returns E base w Hbt Hbc)).
  assert ((if negb (Db.put_accepted E w base)
           then bind (Db.submit E (Poll.preliminary_failure base)) (fun _ => ret tt)
           else ret tt) (Db.after_submit E w base)
          = (Ret tt, Poll.after_placeholder E repo sha w)) as Hpre.
  { unfold Poll.after_placeholder. fold base.
    destruct (Db.put_accepted E w base); simpl; [done |].
    destruct (preliminary_failure_has_keys repo sha) as [Ht Hc].
    by rewrite (bind_returns _ _ _ _ _ (submit_returns E _ _ Ht Hc)). }
  rewrite (bind_returns _ _ _ _ _ Hpre).
  pose proof (final_submission_has_keys repo sha rw.1) as [Ht Hc]. fold base in Ht, Hc.
  assert (try_except
            (bind (Poll.run_evaluation E repo tag sha dir clone)
                  (fun output => lift (Poll.success_submission base output)))
            (fun e => ret (Poll.failed_submission base e))
            (Poll.after_placeholder E repo sha w)
          = (Ret (Poll.final_submission base rw.1), rw.2)) as Htry.
  { unfold try_except, bind, lift, ret. fold rw.
    destruct rw as [[output|e] w2]; simpl; [| done].
    by destruct (Poll.success_submission base output). }
  rewrite (bind_returns _ _ _ _ _ Htry).
  by rewrite (bind_returns _ _ _ _ _ (submit_returns E _ _ Ht Hc)).
Qed.


Lemma run_evaluation_table (repo tag sha : string) (dir : option string)
      (clone : bool) (w : world) :
  table (Poll.run_evaluation E repo tag sha dir clone w).2 = table w.
Proof.
  pose proof (run_evaluation_store repo tag sha dir clone w) as H.
  unfold store_view in H. by injection H as -> _ _ _.
Qed.

(** The placeholder phase only writes to the store. *)
Lemma after_placeholder_eval_log (repo sha : string) (w : world) :
  eval_log (Poll.after_placeholder E repo sha w) = eval_log w.
Proof.
  unfold Poll.after_placeholder. case_match; by rewrite !after_submit_eval_log.
Qed.

Lemma after_placeholder_poll_log (repo sha : string) (w : world) :
  poll_log (Poll.after_placeholder E repo sha w) = poll_log w.
Proof.
  unfold Poll.after_placeholder. case_match; by rewrite !after_submit_poll_log.
Qed.


Lemma after_placeholder_table_grows (repo sha : string) (w : world) :
  table_grows w (Poll.after_placeholder E repo sha w).
Proof.
  unfold Poll.after_placeholder. intros k Hk. case_match.
  - by apply after_submit_table_grows.
  - by do 2 apply after_submit_table_grows.
Qed.

(** The effect of [submit_output] on the logs and on the table. *)
Lemma submit_output_eval_log (repo tag sha : string) (dir : option string)
      (clone : bool) (w : world) :
  eval_log (Poll.submit_output E repo tag sha dir clone w).2 = (repo, sha) :: eval_log w.
Proof.
  rewrite submit_output_eq. simpl. rewrite after_submit_eval_log.
  pose proof (run_evaluation_store repo tag sha dir clone
                (Poll.after_placeholder E repo sha w)) as H.
  unfold store_view in H. injection H as _ _ -> _. simpl.
  by rewrite after_placeholder_eval_log.
Qed.

Lemma submit_output_poll_log (repo tag sha : string) (dir : option string)
      (clone : bool) (w : world) :
  poll_log (Poll.submit_output E repo tag sha dir clone w).2 = poll_log w.
Proof.
  rewrite submit_output_eq. simpl. rewrite after_submit_poll_log.
  pose proof (run_evaluation_store repo tag sha dir clone
                (Poll.after_placeholder E repo sha w)) as H.
  unfold store_view in H. injection H as _ _ _ ->. simpl.
  by rewrite after_placeholder_poll_log.
Qed.

Lemma submit_output_table_grows (repo tag sha : string) (dir : option string)
      (clone : bool) (w : world) :
  table_grows w (Poll.submit_output E repo tag sha dir clone w).2.
Proof.
  rewrite submit_output_eq. simpl. intros k Hk.
  apply after_submit_table_grows.
  pose proof (run_evaluation_store repo tag sha dir clone
                (Poll.after_placeholder E repo sha w)) as H.
  unfold store_view in H. injection H as -> _ _ _. simpl.
  by apply after_placeholder_table_grows.
Qed.

End PollFacts.

(** ** Failure containment and the status lifecycle of [submit_output] *)

Section SubmitOutputClaims.
Import Py Value World Frame.
Context (E : environment).

(** C3: [submit_output] always returns.  Whatever [run_evaluation]
    raises (build, run, extraction) and whatever reading the artifact's
    fields raises is turned into the last item handed to the store,
    with status [failed], the exception's message as [error], its
    traceback as [error_traceback], under the submission's key.  When
    the container run returns and leaves no result file, that last item
    has status [failed]. *)
Theorem submit_output_contains_failures
        (repo tag sha : string) (dir : option string) (clone : bool) (w : world) :
  let base := Poll.base_submission repo sha in
  let w1 := Poll.after_placeholder E repo sha w in
  let rw := Poll.run_evaluation E repo tag sha dir clone w1 in
  let final := Poll.final_submission base rw.1 in
  let item := Db.stored_item E rw.2 final in
  let is_failure_of (e : exn) :=
    status_of item = Some "failed" /\
    item !! "error" = Some (VStr (str e)) /\
    item !! "error_traceback" = Some (VStr (format_exc e)) /\
    Db.key_of item = Some (repo, sha) in
  (Poll.submit_output E repo tag sha dir clone w).1 = Ret tt /\
  head (put_log (Poll.submit_output E repo tag sha dir clone w).2) = Some item /\
  (forall e, rw.1 = Raise e -> is_failure_of e) /\
  (forall output e,
      rw.1 = Ret output -> Poll.success_submission base output = Raise e ->
      is_failure_of e) /\
  (forall wb,
      Dock.save_docker_submission E (Poll.output_directory E)
        (Poll.resolve_repo_dir repo dir)
        (Poll.extraction_entry E repo sha dir clone w1) = (Ret tt, wb) ->
      files wb !! Str.path_join (Poll.output_directory E) "output.json" = None ->
      status_of item = Some "failed").
Proof.
  intros base w1 rw final item is_failure_of.
  assert (forall e, final = Poll.failed_submission base e -> is_failure_of e) as Hfail.
  { intros e Hfinal. unfold is_failure_of, item. rewrite Hfinal.
    rewrite status_of_stored_item, key_of_stored_item, failed_submission_status,
      failed_submission_key.
    destruct (failed_submission_error base e) as [He Ht].
    split; [done |]. split; [by apply stored_item_string_field |].
    split; [by apply stored_item_string_field | apply base_submission_key]. }
  rewrite submit_output_eq. fold base w1 rw final. simpl.
  split; [done |]. split; [by rewrite after_submit_put_log |].
  split; [| split].
  - intros e Hr. apply Hfail. unfold final. by rewrite Hr.
  - intros output e Hr Hs. apply Hfail. unfold final. rewrite Hr. simpl. by rewrite Hs.
  - intros wb Hsave Hfile.
    destruct (get_submission_output_missing_file E _ _ _ _ Hsave Hfile) as [msg Hget].
    destruct (run_evaluation_raises E repo tag sha dir clone w1 _ _ Hget) as [e' Hr].
    fold rw in Hr. by destruct (Hfail e') as [? _]; [unfold final; by rewrite Hr |].
Qed.


End SubmitOutputClaims.


(** ** Deduplication: a recorded commit is not evaluated again *)

Section DedupFacts.
Import Py Value World Frame.
Context (E : environment).

Lemma not_reevaluated_refl (key : string * string) (w : world) :
  not_reevaluated key w w.
Proof. intros H. split; [done |]. exists []. split; [done | apply not_elem_of_nil]. Qed.

Lemma not_reevaluated_trans (key : string * string) (w1 w2 w3 : world) :
  not_reevaluated key w1 w2 -> not_reevaluated key w2 w3 -> not_reevaluated key w1 w3.
Proof.
  intros H12 H23 H1. destruct (H12 H1) as (H2 & new1 & Hlog1 & Hnew1).
  destruct (H23 H2) as (H3 & new2 & Hlog2 & Hnew2).
  split; [done |]. exists (new2 ++ new1). split.
  - by rewrite Hlog2, Hlog1, app_assoc.
  - by apply not_elem_of_app.
Qed.

Lemma keeps_not_reevaluated {A} (key : string * string) (m : M A) :
  keeps (fun w => (table w, eval_log w)) m -> relates (not_reevaluated key) m.
Proof.
  intros Hk w r w' Hm Hrec. apply Hk in Hm. injection Hm as Ht He.
  rewrite Ht, He. by apply not_reevaluated_refl.
Qed.

Lemma check_submission_tags_not_reevaluated (key : string * string) (repo : string) :
  relates (not_reevaluated key) (Poll.check_submission_tags E repo).
Proof.
  apply keeps_not_reevaluated. unfold Poll.check_submission_tags. repeat keeps_step.
Qed.

(** What [process_tag] does, by cases on the table. *)
Lemma process_tag_recorded (repo tag sha : string) (w : world) :
  is_Some (table w !! (repo, sha)) ->
  Poll.process_tag E repo (tag, sha) w = (Ret tt, w).
Proof.
  intros H. unfold Poll.process_tag, Db.is_already_submitted, Db.get_item, bind, get, ret.
  simpl. by rewrite bool_decide_eq_true_2.
Qed.

Lemma process_tag_unrecorded (repo tag sha : string) (w : world) :
  table w !! (repo, sha) = None ->
  Poll.process_tag E repo (tag, sha) w = Poll.submit_output E repo tag sha None true w.
Proof.
  intros H. unfold Poll.process_tag, Db.is_already_submitted, Db.get_item, bind, get, ret.
  simpl. rewrite bool_decide_eq_false_2; [done |]. rewrite H. by intros [? ?].
Qed.

Lemma process_tag_not_reevaluated (key : string * string) (repo : string)
      (t : string * string) :
  relates (not_reevaluated key) (Poll.process_tag E repo t).
Proof.
  destruct t as [tag sha]. intros w r w' Hrun Hkey.
  destruct (table w !! (repo, sha)) as [rec|] eqn:Hrec.
  - rewrite process_tag_recorded in Hrun by (by eexists).
    injection Hrun as <- <-. by apply not_reevaluated_refl.
  - rewrite process_tag_unrecorded in Hrun by done.
    assert (w' = (Poll.submit_output E repo tag sha None true w).2) as ->
      by (by rewrite Hrun).
    split.
    + by apply submit_output_table_grows.
    + exists [(repo, sha)]. split; [apply submit_output_eval_log |].
      apply not_elem_of_cons. split; [| apply not_elem_of_nil].
      intros ->. rewrite Hrec in Hkey. by destruct Hkey.
Qed.

Lemma main_loop_not_reevaluated (key : string * string) (repos : list string) :
  relates (not_reevaluated key) (Poll.main_loop E repos).
Proof.
  unfold Poll.main_loop.
  apply relates_for_each;
    [apply not_reevaluated_refl | apply not_reevaluated_trans |].
  intros repo. unfold Poll.process_repo.
  apply relates_bind; [apply not_reevaluated_trans | |].
  - apply check_submission_tags_not_reevaluated.
  - intros tags. apply relates_for_each;
      [apply not_reevaluated_refl | apply not_reevaluated_trans |].
    intros t. apply process_tag_not_reevaluated.
Qed.

Lemma polls_not_reevaluated (key : string * string) (repos : list string)
      (n : nat) (w : world) :
  not_reevaluated key w (Poll.polls E repos n w).
Proof.
  revert w. induction n as [|n IH]; intros w; simpl.
  - apply not_reevaluated_refl.
  - eapply not_reevaluated_trans; [| apply IH].
    eapply main_loop_not_reevaluated. apply surjective_pairing.
Qed.

(** C1 (amended): in the inner loop of [main], evaluation of a
    (team, commit) is skipped exactly when the table holds a record
    under that key, whatever its status, [pending] included; otherwise
    it runs once.  Once a record is there, no later invocation starts
    an evaluation of that key, and the key stays recorded. *)
Theorem evaluation_skipped_iff_recorded
        (repo tag sha : string) (w : world) :
  let rw := Poll.process_tag E repo (tag, sha) w in
  rw.1 = Ret tt /\
  (is_Some (table w !! (repo, sha)) -> rw.2 = w) /\
  (table w !! (repo, sha) = None -> eval_log rw.2 = (repo, sha) :: eval_log w) /\
  (eval_log rw.2 = eval_log w <-> is_Some (table w !! (repo, sha))) /\
  (forall (repos : list string) (n : nat),
      is_Some (table w !! (repo, sha)) ->
      is_Some (table (Poll.polls E repos n w) !! (repo, sha)) /\
      exists new,
        eval_log (Poll.polls E repos n w) = new ++ eval_log w /\
        (repo, sha) ∉ new).
Proof.
  intros rw. unfold rw.
  destruct (table w !! (repo, sha)) as [rec|] eqn:Hrec.
  - rewrite process_tag_recorded by (rewrite Hrec; by eexists). simpl.
    split; [done |]. split; [done |]. split; [done |]. split; [by split; eauto |].
    intros repos n Hkey.
    apply (polls_not_reevaluated (repo, sha) repos n w). by rewrite Hrec.
  - rewrite process_tag_unrecorded by done.
    rewrite submit_output_eval_log. rewrite submit_output_eq. simpl.
    split; [done |]. split; [by intros [? ?] |]. split; [done |]. split.
    + split; [| by intros [? ?]].
      intros H. apply (f_equal length) in H. simpl in H. lia.
    + by intros repos n [? ?].
Qed.

End DedupFacts.

(** C1, as stated, fails: a commit whose only record is [pending] is not
    eligible.  With such a record in the table, and a tag for that commit
    in the listing, the inner loop skips it and a whole invocation of
    [main] starts no evaluation of it. *)
Lemma pending_record_blocks_evaluation :
  Value.status_of <$>
    (World.table Examples.world_pending !! ("MLAI-AUS-Inc/trading-bot", "abc123"))
    = Some (Some "pending") /\
  Poll.process_tag Examples.env_ok "MLAI-AUS-Inc/trading-bot" ("submission-1", "abc123")
    Examples.world_pending = (Py.Ret tt, Examples.world_pending) /\
  World.eval_log (Poll.main Examples.env_ok Examples.world_pending).2
    = [("MLAI-AUS-Inc/trading-bot-test-team", "abc123")] /\
  Value.status_of <$>
    (World.table (Poll.main Examples.env_ok Examples.world_pending).2
       !! ("MLAI-AUS-Inc/trading-bot", "abc123"))
    = Some (Some "pending").
Proof. vm_compute. repeat split. Qed.

(** ** Polling failures *)

Section PollingFailures.
Import Py Value World Frame.
Context (E : environment).

Local Abbreviation polled := Poll.polled.

(** C5 (amended): when GitHub answers the tag request for a repository
    with a status other than 200, as it does for a failed
    authentication, that repository yields no tags, nothing is
    evaluated or written for it, and [main] goes on with the remaining
    repositories exactly as it would have without it. *)
Theorem poll_failure_by_status_is_contained
        (repo : string) (rest : list string) (w : world) (resp : response) :
  http_get E (tick w) (Poll.GITHUB_API +:+ "/repos/" +:+ repo +:+ "/tags") = Ret resp ->
  status_code resp <> 200%Z ->
  Poll.check_submission_tags E repo w = (Ret [], polled repo w) /\
  Poll.process_repo E repo w = (Ret tt, polled repo w) /\
  Poll.main_loop E (repo :: rest) w = Poll.main_loop E rest (polled repo w) /\
  table (polled repo w) = table w /\
  eval_log (polled repo w) = eval_log w /\
  put_log (polled repo w) = put_log w.
Proof.
  intros Hget Hstatus.
  assert (Poll.check_submission_tags E repo w = (Ret [], polled repo w)) as Hcheck.
  { unfold Poll.check_submission_tags, bind, modify, outside_call, lift, ret. simpl.
    rewrite Hget. unfold Poll.submission_tags_of_response.
    by apply Z.eqb_neq in Hstatus as ->. }
  assert (Poll.process_repo E repo w = (Ret tt, polled repo w)) as Hrepo.
  { unfold Poll.process_repo. by rewrite (bind_returns _ _ _ _ _ Hcheck). }
  repeat split; try done.
  unfold Poll.main_loop. simpl. by rewrite (bind_returns _ _ _ _ _ Hrepo).
Qed.

End PollingFailures.

Lemma poll_failure_by_status_is_contained_witness :
  Poll.main_loop Examples.env_first_poll_unauthorized Poll.REPOS Examples.world0 =
  Poll.main_loop Examples.env_first_poll_unauthorized ["MLAI-AUS-Inc/trading-bot"]
    (Poll.polled "MLAI-AUS-Inc/trading-bot-test-team" Examples.world0).
Proof.
  apply (poll_failure_by_status_is_contained Examples.env_first_poll_unauthorized
           "MLAI-AUS-Inc/trading-bot-test-team" ["MLAI-AUS-Inc/trading-bot"]
           Examples.world0 (World.Response 401 [])).
  - reflexivity.
  - by vm_compute.
Defined.

(** C5, as stated, fails for a network failure: [requests.get] raises,
    nothing catches it, and [main] ends with that exception before it
    polls the second repository, whose new submission stays unevaluated
    although polling it alone would have evaluated it. *)
Lemma network_failure_aborts_main :
  (Poll.main Examples.env_first_poll_unreachable Examples.world0).1
    = Py.Raise (Py.Exn Py.ConnectionError "Max retries exceeded") /\
  World.poll_log (Poll.main Examples.env_first_poll_unreachable Examples.world0).2
    = ["MLAI-AUS-Inc/trading-bot-test-team"] /\
  World.eval_log (Poll.main Examples.env_first_poll_unreachable Examples.world0).2 = [] /\
  World.eval_log
    (Poll.main_loop Examples.env_first_poll_unreachable ["MLAI-AUS-Inc/trading-bot"]
       (Poll.main Examples.env_first_poll_unreachable Examples.world0).2).2
    = [("MLAI-AUS-Inc/trading-bot", "abc123")].
Proof. vm_compute. repeat split. Qed.

(** ** The evaluation program: trials end, and what a run depends on *)

Section EvaluateFacts.
Import Py BatteryEnv.
Context (L : Evaluate.library) (policy_class : Policy.class (Evaluate.gen L)).

Lemma get_info_env (env : BatteryEnv.t) (delta : Q) :
  market_data (get_info env delta).2 = market_data env /\
  current_step (get_info env delta).2 = current_step env.
Proof. done. Qed.

Lemma process_action_env (env env' : BatteryEnv.t) (quantity spot delta : Q) :
  process_action env quantity spot = Ret (delta, env') ->
  market_data env' = market_data env /\ current_step env' = current_step env.
Proof.
  unfold process_action. destruct (Qlt_le_dec 0 quantity).
  - destruct (Battery.charge _ _ _) as [added b]. by intros [= <- <-].
  - destruct (Qlt_le_dec quantity 0); [| by intros [= <- <-]].
    destruct (Battery.discharge _ _ _) as [[removed b]|e]; [| done].
    by intros [= <- <-].
Qed.

(** A step that goes on was not at the last row, keeps the data and
    advances by one; at the last row [step] stops. *)
Lemma step_goes_on (env env' : BatteryEnv.t) (quantity : Q) (x : row * info) :
  step env quantity = Ret (Some x, env') ->
  (current_step env < Z.of_nat (length (market_data env)) - 1)%Z /\
  market_data env' = market_data env /\
  current_step env' = (current_step env + 1)%Z.
Proof.
  unfold step. destruct (_ <=? _)%Z eqn:Hlast; [done |]. apply Z.leb_gt in Hlast.
  destruct (iloc (market_data env) (current_step env)) as [r|e]; [| done].
  destruct (process_action _ _ _) as [[delta env1]|e] eqn:Hact; [| done].
  apply process_action_env in Hact as [Hdata Hstep]. simpl in Hdata, Hstep.
  simpl. destruct (iloc (market_data env1) _) as [r'|e']; [| done].
  intros [= <- <-]. simpl. by rewrite Hdata, Hstep.
Qed.

(** With fuel for the rows that are left, the loop of [run_trial] ends
    by [step] returning [None] or by an exception, not by lack of fuel. *)
Lemma run_trial_loop_ends (fuel : nat) (env : BatteryEnv.t)
      (policy : Policy.object policy_class) (g : Evaluate.gen L)
      (state : row) (i : info) (acc : Evaluate.trial) :
  (0 < fuel)%nat ->
  (Z.of_nat (length (market_data env)) - 1 - current_step env < Z.of_nat fuel)%Z ->
  Evaluate.run_trial_loop L policy_class fuel env policy g state i acc <> None.
Proof.
  revert env policy g state i acc.
  induction fuel as [|fuel IH]; intros env policy g state i acc Hpos Hfuel; [lia |].
  simpl.
  destruct (Policy.act policy_class policy state i g) as [[action policy'] g'].
  destruct (step env action) as [[[[state' i']|] env']|e] eqn:Hstep; try done.
  apply step_goes_on in Hstep as (Hlast & Hdata & Hcur).
  apply IH; rewrite ?Hdata, ?Hcur; lia.
Qed.

(** [run_trial] from a starting step that is not negative ends. *)
Lemma run_trial_ends (env : BatteryEnv.t) (policy : Policy.object policy_class)
      (g : Evaluate.gen L) (start_step episode_length : Z) :
  (0 <= start_step)%Z ->
  Evaluate.run_trial L policy_class env policy g start_step episode_length <> None.
Proof.
  intros Hstart. unfold Evaluate.run_trial, reset.
  destruct (iloc _ _) as [r|e]; [| done]. cbn -[Evaluate.run_trial_loop].
  apply run_trial_loop_ends; simpl; lia.
Qed.

(** What a run produces does not depend on the interpreter's initial
    generator state, on the clock or on the output path, when the
    policy's constructor builds the same object whatever the state of
    the generators. *)
Lemma main_independent_of_ambient
      (trials seed : Z) (data : list row) (parameters : list (string * Py.number))
      (output_file1 output_file2 : option string) (a1 a2 : Evaluate.ambient L) :
  (forall g1 g2,
      (Policy.construct policy_class parameters g1).1 =
      (Policy.construct policy_class parameters g2).1) ->
  Evaluate.produced_artifact
    (Evaluate.main L policy_class trials seed data parameters output_file1 a1) =
  Evaluate.produced_artifact
    (Evaluate.main L policy_class trials seed data parameters output_file2 a2).
Proof.
  intros Hconstruct. unfold Evaluate.main.
  specialize (Hconstruct (Evaluate.initial_generators a1) (Evaluate.initial_generators a2)).
  destruct (Policy.construct policy_class parameters (Evaluate.initial_generators a1))
    as [r1 g1].
  destruct (Policy.construct policy_class parameters (Evaluate.initial_generators a2))
    as [r2 g2].
  simpl in Hconstruct. subst r2. destruct r1 as [policy|e]; [| done].
  destruct (Evaluate.set_seed L seed) as [g|e]; [| done].
  destruct (Evaluate.draw_episodes _ _ _ _ _ _ _ _) as [[[starts lengths]|e] g'];
    [| done].
  by destruct (Evaluate.run_trials _ _ _ _ _ _ _ _) as [[[totals all]|e]|].
Qed.

End EvaluateFacts.

(** The two policies of the repository build their object from the
    parameters alone. *)
Lemma repository_policies_deterministic
      (L : Evaluate.library) (trials seed : Z) (data : list BatteryEnv.row)
      (parameters : list (string * Py.number)) (a1 a2 : Evaluate.ambient L) :
  Evaluate.produced_artifact
    (Evaluate.main L (Policy.SimplePolicy _) trials seed data parameters None a1) =
  Evaluate.produced_artifact
    (Evaluate.main L (Policy.SimplePolicy _) trials seed data parameters None a2) /\
  Evaluate.produced_artifact
    (Evaluate.main L (Policy.MovingAveragePolicy _) trials seed data parameters None a1) =
  Evaluate.produced_artifact
    (Evaluate.main L (Policy.MovingAveragePolicy _) trials seed data parameters None a2).
Proof.
  split; apply main_independent_of_ambient; intros g1 g2; simpl.
  - by destruct (Policy.unexpected_keyword _ _).
  - destruct (Policy.unexpected_keyword _ _); [done |].
    by destruct (Policy.deque_maxlen _).
Qed.

(** C9, at the failing input: the same submission, the same data and the
    same seed, run twice.  The policy's constructor draws from [random]
    before [main] calls [set_seed], so the draw comes from the
    interpreter's own seeding and the two artifacts differ in
    [mean_profit] and in [std_profit]. *)
Theorem evaluation_depends_on_unseeded_constructor :
  exists art1 art2 : Evaluate.artifact,
    Evaluate.main Examples.toy_library Examples.RandomInitPolicy 3 42
      Examples.market_data [] (Some "/output/output.json") Examples.first_run
      = Some (Py.Ret (art1, "/output/output.json")) /\
    Evaluate.main Examples.toy_library Examples.RandomInitPolicy 3 42
      Examples.market_data [] (Some "/output/output.json") Examples.second_run
      = Some (Py.Ret (art2, "/output/output.json")) /\
    ~ (Evaluate.mean_profit art1 == Evaluate.mean_profit art2)%Q /\
    ~ (Evaluate.std_profit art1 == Evaluate.std_profit art2)%Q.
Proof.
  eexists _, _. split; [vm_compute; reflexivity |]. split; [vm_compute; reflexivity |].
  split; intros H; by vm_compute in H.
Qed.

(** ** The claims about the backend, at concrete inputs *)

Lemma submit_output_contains_failures_witness :
  (Poll.submit_output Examples.env_no_artifact
     "MLAI-AUS-Inc/trading-bot" "submission-1" "abc123" None true Examples.world0).1
    = Py.Ret tt /\
  Value.status_of <$>
    head (World.put_log
            (Poll.submit_output Examples.env_no_artifact
               "MLAI-AUS-Inc/trading-bot" "submission-1" "abc123" None true
               Examples.world0).2)
    = Some (Some "failed").
Proof.
  pose proof (submit_output_contains_failures Examples.env_no_artifact
                "MLAI-AUS-Inc/trading-bot" "submission-1" "abc123" None true
                Examples.world0) as H.
  cbv zeta in H. destruct H as (Hret & Hhead & _ & _ & Hmissing).
  split; [exact Hret |]. rewrite Hhead. apply (f_equal Some).
  eapply Hmissing; vm_compute; reflexivity.
Defined.


Lemma evaluation_skipped_iff_recorded_witness :
  exists new,
    World.eval_log (Poll.polls Examples.env_ok Poll.REPOS 2 Examples.world_pending)
      = new ++ World.eval_log Examples.world_pending /\
    ("MLAI-AUS-Inc/trading-bot", "abc123") ∉ new.
Proof.
  destruct (evaluation_skipped_iff_recorded Examples.env_ok
              "MLAI-AUS-Inc/trading-bot" "submission-1" "abc123" Examples.world_pending)
    as (_ & _ & _ & _ & Hpolls).
  destruct (Hpolls Poll.REPOS 2%nat) as [_ Hnew].
  - eexists. vm_compute. reflexivity.
  - exact Hnew.
Defined.
